(** * Gateway credentials and chat-model node of [nodes-langchain]

    A shallow embedding of

    - [credentials/VercelAiGatewayPlusApi.credentials.ts]
      ([toRecord], [authenticate], [test]),
    - [credentials/AdalinkAiGatewayApi.credentials.ts] ([test]),
    - the chat-model node [LmChatVercelAiGatewayPlus]
      ([toRecord], the options of [description], [supplyData]),

    followed by the properties of these functions.

    JavaScript objects used as string-keyed maps are [gmap string _];
    the request options mutated by [authenticate] live in a store
    indexed by references, so that "the same object, mutated" can be
    stated; exceptions are a sum type. *)

From Stdlib Require Import ZArith Ascii String.
From stdpp Require Import base option strings list gmap pretty.

Set Warnings "-register-all".
Local Open Scope string_scope.

(** ** JavaScript values *)

Module JS.

(** The values the credential store and [JSON.parse] hand to this code:
    [undefined], [null], booleans, numbers, strings, arrays and plain
    objects.  The type of numbers is a parameter: the code never
    computes with a number, it only passes numbers on. *)
Inductive value (number : Type) : Type :=
  | JUndefined
  | JNull
  | JBool (b : bool)
  | JNumber (n : number)
  | JString (s : string)
  | JArray (items : list (value number))
  | JObject (props : gmap string (value number)).

Arguments JUndefined {number}.
Arguments JNull {number}.
Arguments JBool {number} b.
Arguments JNumber {number} n.
Arguments JString {number} s.
Arguments JArray {number} items.
Arguments JObject {number} props.

(** What the code takes from the language runtime.
    - [Number_lit z]: the number a numeric literal of the source denotes;
    - [JSON_parse s]: [JSON.parse(s)], [None] when it throws;
    - [JSON_stringify v]: [JSON.stringify(v)].  The code applies it only
      to values that are not [undefined], where it returns a string for
      every value of the type above. *)
Class Runtime (number : Type) : Type := {
  Number_lit : Z → number;
  JSON_parse : string → option (value number);
  JSON_stringify : value number → string;
}.

(** [typeof v] *)
Definition typeof {number} (v : value number) : string :=
  match v with
  | JUndefined => "undefined"
  | JNull => "object"
  | JBool _ => "boolean"
  | JNumber _ => "number"
  | JString _ => "string"
  | JArray _ => "object"
  | JObject _ => "object"
  end.

(** [v === undefined || v === null] *)
Definition nullish {number} (v : value number) : bool :=
  match v with
  | JUndefined | JNull => true
  | _ => false
  end.

(** [v === null] *)
Definition is_null {number} (v : value number) : bool :=
  match v with
  | JNull => true
  | _ => false
  end.

(** [Array.isArray(v)] *)
Definition Array_isArray {number} (v : value number) : bool :=
  match v with
  | JArray _ => true
  | _ => false
  end.

(** [Object.entries(v)] for a plain object: its own (key, value) pairs.
    The callers below reach it with plain objects only. *)
Definition Object_entries {number} (v : value number) : list (string * value number) :=
  match v with
  | JObject props => map_to_list props
  | _ => []
  end.

(** [Object.keys(o)] of a record of strings. *)
Definition Object_keys {V} (o : gmap string V) : list string :=
  (map_to_list o).*1.

(** [o.k]: the own property, or [undefined]. *)
Definition get {number} (o : gmap string (value number)) (k : string) : value number :=
  default JUndefined (o !! k).

(** [acc[key] = s] on an object created by the literal [{}].  Such an
    object inherits the accessor [__proto__] from [Object.prototype]:
    assigning a string to that key calls the setter, which ignores
    values that are neither objects nor [null], and no own property is
    created.  Every other key becomes (or updates) an own property. *)
Definition assign (acc : gmap string string) (key : string) (s : string) : gmap string string :=
  if decide (key = "__proto__") then acc else <[key := s]> acc.

(** [{...o1, ...o2, ...}]: own properties copied left to right, a later
    object overriding an earlier one. *)
Definition spread {V} (parts : list (gmap string V)) : gmap string V :=
  foldl (λ acc o, o ∪ acc) ∅ parts.

(** A record of strings seen as an object of values. *)
Definition of_record {number} (r : gmap string string) : gmap string (value number) :=
  JString <$> r.

End JS.

Export JS.

(** ** Types of the host ([n8n-workflow]) and the store *)

Module Workflow.

(** [new Error(message)] *)
Inductive exn : Type :=
  | Error (message : string).

Section with_number.
Context {number : Type}.

(** Modelled from the spec: the interface [IHttpRequestOptions] of
    [n8n-workflow] is imported by the credential files and is not among
    the sources.  The spec (section 3, "Request options") describes it
    as the outbound HTTP options object with a headers mapping and a
    query-string mapping; the test requests of both credential files
    also give it [baseURL], [url], [method], [headers] and [body].
    Every field the code never names is kept in [others]. *)
Record IHttpRequestOptions : Type := {
  baseURL : option string;
  url : string;
  method : option string;
  headers : option (gmap string (value number));
  qs : option (gmap string (value number));
  body : option (value number);
  others : gmap string (value number);
}.

(** [requestOptions.headers = h] *)
Definition set_headers (h : gmap string (value number)) (o : IHttpRequestOptions) : IHttpRequestOptions :=
  {| baseURL := baseURL o; url := url o; method := method o;
     headers := Some h; qs := qs o; body := body o; others := others o |}.

(** [requestOptions.qs = q] *)
Definition set_qs (q : gmap string (value number)) (o : IHttpRequestOptions) : IHttpRequestOptions :=
  {| baseURL := baseURL o; url := url o; method := method o;
     headers := headers o; qs := Some q; body := body o; others := others o |}.

(** Modelled from the spec: [ICredentialTestRequest] of [n8n-workflow]
    (not among the sources), "a template request description". *)
Record ICredentialTestRequest : Type := {
  request : IHttpRequestOptions;
}.

(** References to request-options objects, and the store they point
    into.  A JavaScript reference always designates an object, so the
    store is total. *)
Definition ref : Type := nat.
Definition store : Type := ref → IHttpRequestOptions.

(** Computations that read and write the store and may throw. *)
Definition M (A : Type) : Type := store → (exn + A) * store.

Definition throw {A} (e : exn) : M A := λ σ, (inl e, σ).

#[global] Instance M_ret : MRet M := λ A a σ, (inr a, σ).

#[global] Instance M_bind : MBind M := λ A B k m σ,
  match m σ with
  | (inl e, σ') => (inl e, σ')
  | (inr a, σ') => k a σ'
  end.

(** Reading the object behind a reference. *)
Definition load (r : ref) : M IHttpRequestOptions := λ σ, (inr (σ r), σ).

(** Updating the object behind a reference in place. *)
Definition modify (r : ref) (f : IHttpRequestOptions → IHttpRequestOptions) : M unit :=
  λ σ, (inr tt, λ r', if decide (r' = r) then f (σ r) else σ r').

End with_number.

Arguments IHttpRequestOptions : clear implicits.
Arguments ICredentialTestRequest : clear implicits.
Arguments store : clear implicits.
Arguments M : clear implicits.

End Workflow.

Export Workflow.

(** ** Declarative descriptions of the host *)

Module Schema.

(** The double quote, for the texts that hold one. *)
Definition dq : string := String "034" "".

(** Modelled from the spec: an entry of a credential's property list
    ([INodeProperties] of [n8n-workflow], not among the sources), "a
    config schema" of "static descriptive data", with the fields the
    entries of the two credential files set: [typeOptions.password] is
    [password], a field that is not set is [false] or [None]. *)
Record INodeProperties : Type := {
  displayName : string;
  name : string;
  type : string;
  password : bool;
  required : bool;
  default_ : string;
  description : string;
  placeholder : option string;
}.

(** Modelled from the spec: [IAuthenticateGeneric] of [n8n-workflow]
    (not among the sources), "a static header template substituting the
    stored API key". *)
Record IAuthenticateGeneric : Type := {
  auth_type : string;
  auth_headers : gmap string string;
}.

(** An entry of the list [credentials] of a node description. *)
Record INodeCredentialDescription : Type := {
  credential_name : string;
  credential_required : bool;
}.

End Schema.

(** ** The credential type [VercelAiGatewayPlusApi] *)

Module VercelAiGatewayPlusApi.

Section with_runtime.
Context {number : Type} {RT : Runtime number}.

(** [toRecord], lines 9-36 of the credential file. *)
Definition toRecord (value : JS.value number) : option (gmap string string) :=
  if nullish value then None else
  let parsed :=
    match value with
    | JString text => JSON_parse text
    | _ => Some value
    end in
  match parsed with
  | None => None
  | Some source =>
    if negb (String.eqb (typeof source) "object") || is_null source || Array_isArray source
    then None
    else
      let entries :=
        foldl (λ acc '(key, val),
                 if nullish val then acc
                 else assign acc key
                        (match val with
                         | JString s => s
                         | _ => JSON_stringify val
                         end))
              ∅ (Object_entries source) in
      if bool_decide (0 < length (Object_keys entries)) then Some entries else None
  end.

(** The message of the error [authenticate] throws. *)
Definition API_KEY_REQUIRED : exn :=
  Error "API key is required for Vercel AI Gateway Plus.".

(** [authenticate], lines 82-116.  [credentials] is the decrypted
    credential object; [requestOptions] is a reference to the request
    options, which are mutated in place and returned.  The guard
    [typeof credentials.apiKey !== 'string' || credentials.apiKey === '']
    is the [match] on the property together with the test for [""]. *)
Definition authenticate (credentials : gmap string (value number)) (requestOptions : ref)
    : M number ref :=
  match get credentials "apiKey" with
  | JString apiKey =>
    if String.eqb apiKey "" then throw API_KEY_REQUIRED
    else
      let baseHeaders : gmap string string :=
        {[ "Authorization" := "Bearer " +:+ apiKey;
           "http-referer" := "https://n8n.io/";
           "x-title" := "n8n" ]} in
      let additionalHeaders := toRecord (get credentials "additionalHeaders") in
      old ← load requestOptions;
      modify requestOptions
        (set_headers (spread [ default ∅ (headers old);
                               of_record baseHeaders;
                               of_record (default ∅ additionalHeaders) ]));;
      let additionalQuery := toRecord (get credentials "additionalQuery") in
      match additionalQuery with
      | Some additionalQuery =>
          old ← load requestOptions;
          modify requestOptions
            (set_qs (spread [ default ∅ (qs old); of_record additionalQuery ]))
      | None => mret tt
      end;;
      mret requestOptions
  | _ => throw API_KEY_REQUIRED
  end.

(** [test], lines 118-133. *)
Definition test : ICredentialTestRequest number :=
  {| request :=
       {| baseURL := Some "={{ $credentials.url }}";
          url := "/chat/completions";
          method := Some "POST";
          headers := Some {[ "http-referer" := JString "https://n8n.io/";
                             "x-title" := JString "n8n" ]};
          qs := None;
          body := Some (JObject
            {[ "model" := JString "openai/gpt-4.1-nano";
               "messages" := JArray [ JObject {[ "role" := JString "user";
                                                 "content" := JString "test" ]} ];
               "max_tokens" := JNumber (Number_lit 1) ]});
          others := ∅ |} |}.

End with_runtime.

(** [name], [displayName] and [documentationUrl], lines 39-43. *)
Definition name : string := "vercelAiGatewayPlusApi".

Definition displayName : string := "Vercel AI Gateway Plus".

Definition documentationUrl : string := "vercelaigateway".

(** [properties], lines 45-80. *)
Definition properties : list Schema.INodeProperties :=
  [ {| Schema.displayName := "API Key or OIDC Token";
       Schema.name := "apiKey";
       Schema.type := "string";
       Schema.password := true;
       Schema.required := true;
       Schema.default_ := "";
       Schema.description := "Your credentials for the Vercel AI Gateway";
       Schema.placeholder := None |};
    {| Schema.displayName := "Base URL";
       Schema.name := "url";
       Schema.type := "string";
       Schema.password := false;
       Schema.required := true;
       Schema.default_ := "https://ai-gateway.vercel.sh/v1";
       Schema.description := "The base URL for your Vercel AI Gateway instance";
       Schema.placeholder := Some "https://ai-gateway.vercel.sh/v1" |};
    {| Schema.displayName := "Additional Headers";
       Schema.name := "additionalHeaders";
       Schema.type := "json";
       Schema.password := false;
       Schema.required := false;
       Schema.default_ := "";
       Schema.description :=
         "Additional headers to include with every request as a JSON object, for example {"
           +:+ Schema.dq +:+ "x-my-header" +:+ Schema.dq +:+ ": "
           +:+ Schema.dq +:+ "value" +:+ Schema.dq +:+ "}";
       Schema.placeholder := None |};
    {| Schema.displayName := "Additional Query Parameters";
       Schema.name := "additionalQuery";
       Schema.type := "json";
       Schema.password := false;
       Schema.required := false;
       Schema.default_ := "";
       Schema.description :=
         "Additional query parameters to include with every request as a JSON object, for example {"
           +:+ Schema.dq +:+ "team" +:+ Schema.dq +:+ ": "
           +:+ Schema.dq +:+ "blue" +:+ Schema.dq +:+ "}";
       Schema.placeholder := None |} ].

End VercelAiGatewayPlusApi.

(** ** The credential type [AdalinkAiGatewayApi] *)

Module AdalinkAiGatewayApi.

Section with_runtime.
Context {number : Type} {RT : Runtime number}.

(** [test], lines 47-62 of the credential file. *)
Definition test : ICredentialTestRequest number :=
  {| request :=
       {| baseURL := Some "={{ $credentials.url }}";
          url := "/chat/completions";
          method := Some "POST";
          headers := Some {[ "http-referer" := JString "https://n8n.io/";
                             "x-title" := JString "n8n" ]};
          qs := None;
          body := Some (JObject
            {[ "model" := JString "openai/gpt-4.1-nano";
               "messages" := JArray [ JObject {[ "role" := JString "user";
                                                 "content" := JString "test" ]} ];
               "max_tokens" := JNumber (Number_lit 1) ]});
          others := ∅ |} |}.

End with_runtime.

(** [name], [displayName] and [documentationUrl], lines 9-13. *)
Definition name : string := "adalinkAiGatewayApi".

Definition displayName : string := "Adalink AI Gateway".

Definition documentationUrl : string := "adalinkaigateway".

(** [properties], lines 15-34. *)
Definition properties : list Schema.INodeProperties :=
  [ {| Schema.displayName := "API Key or OIDC Token";
       Schema.name := "apiKey";
       Schema.type := "string";
       Schema.password := true;
       Schema.required := true;
       Schema.default_ := "";
       Schema.description := "Your credentials for the Adalink AI Gateway";
       Schema.placeholder := None |};
    {| Schema.displayName := "Base URL";
       Schema.name := "url";
       Schema.type := "string";
       Schema.password := false;
       Schema.required := true;
       Schema.default_ := "https://ai-gateway.vercel.sh/v1";
       Schema.description := "The base URL for your Adalink AI Gateway instance";
       Schema.placeholder := Some "https://ai-gateway.vercel.sh/v1" |} ].

(** [authenticate], lines 36-45: the declarative form, a template the
    host fills in. *)
Definition authenticate : Schema.IAuthenticateGeneric :=
  {| Schema.auth_type := "generic";
     Schema.auth_headers :=
       {[ "Authorization" := "=Bearer {{$credentials.apiKey}}";
          "http-referer" := "https://n8n.io/";
          "x-title" := "n8n" ]} |}.

End AdalinkAiGatewayApi.

(** ** Credential shapes ([types.ts]) *)

Module Types.

Section with_number.
Context {number : Type}.

(** [VercelAiGatewayPlusCredential]: [OpenAICompatibleCredential] with
    the two optional overrides.  [url] is declared a string; the node
    reads it as [credentials.url ?? ''], so a missing [url] is kept
    ([None]).  An override that is not set is [JUndefined]. *)
Record VercelAiGatewayPlusCredential : Type := {
  apiKey : string;
  url : option string;
  additionalHeaders : value number;
  additionalQuery : value number;
}.

End with_number.

Arguments VercelAiGatewayPlusCredential : clear implicits.

End Types.

(** ** The node [LmChatVercelAiGatewayPlus] *)

Module LmChatVercelAiGatewayPlus.

Section with_runtime.
Context {number : Type} {RT : Runtime number}.

(** [toRecord], lines 18-45 of the node file. *)
Definition toRecord (value : JS.value number) : option (gmap string string) :=
  if nullish value then None else
  let parsed :=
    match value with
    | JString text => JSON_parse text
    | _ => Some value
    end in
  match parsed with
  | None => None
  | Some source =>
    if negb (String.eqb (typeof source) "object") || is_null source || Array_isArray source
    then None
    else
      let entries :=
        foldl (λ acc '(key, val),
                 if nullish val then acc
                 else assign acc key
                        (match val with
                         | JString s => s
                         | _ => JSON_stringify val
                         end))
              ∅ (Object_entries source) in
      if bool_decide (0 < length (Object_keys entries)) then Some entries else None
  end.

(** An entry of a property list ([INodeProperties]), with the fields the
    two entries below use; [default_] is its field [default]. *)
Record INodeProperties : Type := {
  displayName : string;
  name : string;
  default_ : value number;
  description : string;
  type : string;
}.

(** The entry [timeout] of the collection [options], lines 221-227. *)
Definition timeoutOption : INodeProperties :=
  {| displayName := "Timeout";
     name := "timeout";
     default_ := JNumber (Number_lit 360000);
     description := "Maximum amount of time a request is allowed to take in milliseconds";
     type := "number" |}.

(** The entry [maxRetries] of the collection [options], lines 228-234. *)
Definition maxRetriesOption : INodeProperties :=
  {| displayName := "Max Retries";
     name := "maxRetries";
     default_ := JNumber (Number_lit 2);
     description := "Maximum number of retries to attempt";
     type := "number" |}.

(** ['text' | 'json_object'] *)
Inductive ResponseFormat : Type :=
  | text
  | json_object.

(** The type the options parameter is cast to, lines 257-266.
    [maxRetries] and [timeout] are declared without [?], and read with
    [??]: like the others they may be missing. *)
Record NodeOptions : Type := {
  frequencyPenalty : option number;
  maxTokens : option number;
  maxRetries : option number;
  timeout : option number;
  presencePenalty : option number;
  temperature : option number;
  topP : option number;
  responseFormat : option ResponseFormat;
}.

(** [{}], the fallback of the options parameter. *)
Definition no_options : NodeOptions :=
  {| frequencyPenalty := None; maxTokens := None; maxRetries := None;
     timeout := None; presencePenalty := None; temperature := None;
     topP := None; responseFormat := None |}.

(** The execution context [this] ([ISupplyDataFunctions]), as this node
    uses it: the credential lookup, which may throw, and the three
    parameter reads; [None] is a parameter without a value, for which
    the node passes a fallback. *)
Record ISupplyDataFunctions : Type := {
  getCredentials : string → exn + Types.VercelAiGatewayPlusCredential number;
  getNodeParameter_model : nat → exn + string;
  getNodeParameter_user : nat → option string;
  getNodeParameter_options : nat → option NodeOptions;
}.

(** The collaborators the host and the client library supply: the proxy
    agent of a base URL ([getProxyAgent]), the tracing callback, the
    failed-attempt handlers. *)
Class Host : Type := {
  Dispatcher : Type;
  Callback : Type;
  Handler : Type;
  getProxyAgent : string → Dispatcher;
  N8nLlmTracing : ISupplyDataFunctions → Callback;
  openAiFailedAttemptHandler : Handler;
  makeN8nLlmFailedAttemptHandler : ISupplyDataFunctions → Handler → Handler;
}.

Context {HT : Host}.

(** [fetchOptions] of the client configuration. *)
Record FetchOptions : Type := {
  dispatcher : Dispatcher;
}.

(** [ClientOptions] of the client library, with the fields the node
    sets; an absent field is [None]. *)
Record ClientOptions : Type := {
  baseURL : option string;
  fetchOptions : option FetchOptions;
  defaultHeaders : gmap string string;
  defaultQuery : option (gmap string string);
}.

(** [{ response_format: { type } }] *)
Record ModelKwargs : Type := {
  response_format : ResponseFormat;
}.

(** The fields [new ChatOpenAI({...})] is given, lines 299-314: the two
    named first, the options spread over them, then the fields written
    after the spread, which override [timeout] and [maxRetries] of the
    options. *)
Record ChatOpenAI : Type := {
  client_apiKey : string;
  client_model : string;
  client_frequencyPenalty : option number;
  client_maxTokens : option number;
  client_presencePenalty : option number;
  client_temperature : option number;
  client_topP : option number;
  client_responseFormat : option ResponseFormat;
  client_timeout : number;
  client_maxRetries : number;
  configuration : ClientOptions;
  callbacks : list Callback;
  user : option string;
  modelKwargs : option ModelKwargs;
  onFailedAttempt : Handler;
}.

(** [SupplyData] *)
Record SupplyData : Type := {
  response : ChatOpenAI;
}.

(** [s.replace(/\/+$/, '')]: the longest run of ['/'] that ends the
    string is removed. *)
Fixpoint strip_trailing_slashes (s : string) : string :=
  match s with
  | EmptyString => EmptyString
  | String c rest =>
      let rest' := strip_trailing_slashes rest in
      if Ascii.eqb c "/"%char && String.eqb rest' "" then EmptyString else String c rest'
  end.

(** [s || undefined] for a string [s] *)
Definition or_undefined (s : string) : option string :=
  if String.eqb s "" then None else Some s.

(** [configuration.defaultHeaders = h] *)
Definition set_defaultHeaders (h : gmap string string) (c : ClientOptions) : ClientOptions :=
  {| baseURL := baseURL c; fetchOptions := fetchOptions c;
     defaultHeaders := h; defaultQuery := defaultQuery c |}.

(** [configuration.defaultQuery = q] *)
Definition set_defaultQuery (q : gmap string string) (c : ClientOptions) : ClientOptions :=
  {| baseURL := baseURL c; fetchOptions := fetchOptions c;
     defaultHeaders := defaultHeaders c; defaultQuery := Some q |}.

(** [supplyData], lines 249-319.  The local object [configuration] is
    built, then updated twice; each update is a new binding. *)
Definition supplyData (this : ISupplyDataFunctions) (itemIndex : nat) : exn + SupplyData :=
  match getCredentials this "vercelAiGatewayPlusApi" with
  | inl e => inl e
  | inr credentials =>
  match getNodeParameter_model this itemIndex with
  | inl e => inl e
  | inr modelName =>
    let user := default "" (getNodeParameter_user this itemIndex) in
    let options := default no_options (getNodeParameter_options this itemIndex) in
    let baseURL := strip_trailing_slashes (default "" (Types.url credentials)) in
    let configuration : ClientOptions :=
      {| baseURL := or_undefined baseURL;
         fetchOptions :=
           if String.eqb baseURL "" then None
           else Some {| dispatcher := getProxyAgent baseURL |};
         defaultHeaders := {[ "http-referer" := "https://n8n.io/"; "x-title" := "n8n" ]};
         defaultQuery := None |} in
    let additionalHeaders := toRecord (Types.additionalHeaders credentials) in
    let configuration :=
      match additionalHeaders with
      | Some additionalHeaders =>
          set_defaultHeaders
            (spread [ defaultHeaders configuration; additionalHeaders ]) configuration
      | None => configuration
      end in
    let additionalQuery := toRecord (Types.additionalQuery credentials) in
    let configuration :=
      match additionalQuery with
      | Some additionalQuery =>
          set_defaultQuery
            (spread [ default ∅ (defaultQuery configuration); additionalQuery ]) configuration
      | None => configuration
      end in
    let model : ChatOpenAI :=
      {| client_apiKey := Types.apiKey credentials;
         client_model := modelName;
         client_frequencyPenalty := frequencyPenalty options;
         client_maxTokens := maxTokens options;
         client_presencePenalty := presencePenalty options;
         client_temperature := temperature options;
         client_topP := topP options;
         client_responseFormat := responseFormat options;
         client_timeout := default (Number_lit 60000) (timeout options);
         client_maxRetries := default (Number_lit 2) (maxRetries options);
         configuration := configuration;
         callbacks := [ N8nLlmTracing this ];
         user := or_undefined user;
         modelKwargs :=
           (* [options.responseFormat ? ... : undefined]: both formats
              are non-empty strings, hence truthy *)
           match responseFormat options with
           | Some format => Some {| response_format := format |}
           | None => None
           end;
         onFailedAttempt := makeN8nLlmFailedAttemptHandler this openAiFailedAttemptHandler |} in
    inr {| response := model |}
  end end.

End with_runtime.

Arguments INodeProperties : clear implicits.
Arguments NodeOptions : clear implicits.
Arguments ISupplyDataFunctions : clear implicits.
Arguments Host : clear implicits.

(** The list [credentials] of [description], lines 78-83. *)
Definition description_credentials : list Schema.INodeCredentialDescription :=
  [ {| Schema.credential_name := "vercelAiGatewayPlusApi";
       Schema.credential_required := true |} ].

End LmChatVercelAiGatewayPlus.

(** ** A reference runtime

    An instance of [Runtime] over the integers, used to run the
    functions on concrete inputs.  It reads and prints the part of JSON
    the examples are written in: objects, arrays, strings with the
    two-character escapes, integer literals, [true], [false] and
    [null].  A text outside this part (a fraction, an exponent, a
    [\u] escape) is refused like a malformed one.  Objects are printed
    with their keys in the order of [map_to_list]. *)

Module Reference.

(** The double quote. *)
Definition DQ : ascii := "034"%char.

(** [quoted s] is [s] between double quotes. *)
Definition quoted (s : string) : string := String DQ (s +:+ String DQ "").

Definition is_space (c : ascii) : bool :=
  Ascii.eqb c " " || Ascii.eqb c "009" || Ascii.eqb c "010" || Ascii.eqb c "013".

Fixpoint skip_space (s : string) : string :=
  match s with
  | String c r => if is_space c then skip_space r else s
  | EmptyString => EmptyString
  end.

Definition digit (c : ascii) : option Z :=
  let n := nat_of_ascii c in
  if (48 <=? n)%nat && (n <=? 57)%nat then Some (Z.of_nat (n - 48)) else None.

Fixpoint digits (acc : Z) (s : string) : Z * string :=
  match s with
  | String c r =>
      match digit c with
      | Some d => digits (10 * acc + d) r
      | None => (acc, s)
      end
  | EmptyString => (acc, EmptyString)
  end.

(** After the digits of an integer: a fraction or an exponent is not
    read. *)
Definition ends_integer (s : string) : bool :=
  match s with
  | String c _ => negb (Ascii.eqb c "." || Ascii.eqb c "e" || Ascii.eqb c "E")
  | EmptyString => true
  end.

Definition unsigned (s : string) : option (Z * string) :=
  match s with
  | String c r =>
      match digit c with
      | Some d =>
          let '(n, rest) := if Z.eqb d 0 then (0%Z, r) else digits d r in
          if ends_integer rest then Some (n, rest) else None
      | None => None
      end
  | EmptyString => None
  end.

Definition integer (s : string) : option (Z * string) :=
  match s with
  | String c r =>
      if Ascii.eqb c "-"
      then prod_map Z.opp id <$> unsigned r
      else unsigned s
  | EmptyString => None
  end.

Definition unescape (c : ascii) : option ascii :=
  if Ascii.eqb c DQ then Some DQ
  else if Ascii.eqb c "\" then Some "\"%char
  else if Ascii.eqb c "/" then Some "/"%char
  else if Ascii.eqb c "b" then Some "008"%char
  else if Ascii.eqb c "f" then Some "012"%char
  else if Ascii.eqb c "n" then Some "010"%char
  else if Ascii.eqb c "r" then Some "013"%char
  else if Ascii.eqb c "t" then Some "009"%char
  else None.

(** The characters of a string literal after its opening quote, and
    what follows the closing quote. *)
Fixpoint string_body (s : string) : option (string * string) :=
  match s with
  | EmptyString => None
  | String c r =>
      if Ascii.eqb c DQ then Some (EmptyString, r)
      else if Ascii.eqb c "\" then
        match r with
        | String e r' =>
            match unescape e with
            | Some c' => prod_map (String c') id <$> string_body r'
            | None => None
            end
        | EmptyString => None
        end
      else if (nat_of_ascii c <? 32)%nat then None
      else prod_map (String c) id <$> string_body r
  end.

(** [keyword w s]: [s] without its prefix [w]. *)
Fixpoint keyword (w s : string) : option string :=
  match w, s with
  | EmptyString, _ => Some s
  | String a w', String b s' => if Ascii.eqb a b then keyword w' s' else None
  | String _ _, EmptyString => None
  end.

Fixpoint parse_value (fuel : nat) (s : string) : option (value Z * string) :=
  match fuel with
  | O => None
  | S fuel =>
      match skip_space s with
      | EmptyString => None
      | String c r =>
          if Ascii.eqb c "{" then
            match keyword "}" (skip_space r) with
            | Some r' => Some (JObject ∅, r')
            | None => parse_members fuel r ∅
            end
          else if Ascii.eqb c "[" then
            match keyword "]" (skip_space r) with
            | Some r' => Some (JArray [], r')
            | None => parse_elements fuel r []
            end
          else if Ascii.eqb c DQ then prod_map JString id <$> string_body r
          else if Ascii.eqb c "t" then pair (JBool true) <$> keyword "rue" r
          else if Ascii.eqb c "f" then pair (JBool false) <$> keyword "alse" r
          else if Ascii.eqb c "n" then pair JNull <$> keyword "ull" r
          else prod_map JNumber id <$> integer (String c r)
      end
  end
with parse_elements (fuel : nat) (s : string) (acc : list (value Z))
    : option (value Z * string) :=
  match fuel with
  | O => None
  | S fuel =>
      match parse_value fuel s with
      | Some (v, r) =>
          match skip_space r with
          | String c r' =>
              if Ascii.eqb c "," then parse_elements fuel r' (acc ++ [v])
              else if Ascii.eqb c "]" then Some (JArray (acc ++ [v]), r')
              else None
          | EmptyString => None
          end
      | None => None
      end
  end
with parse_members (fuel : nat) (s : string) (acc : gmap string (value Z))
    : option (value Z * string) :=
  match fuel with
  | O => None
  | S fuel =>
      match keyword (String DQ "") (skip_space s) with
      | Some r =>
          match string_body r with
          | Some (key, r) =>
              match keyword ":" (skip_space r) with
              | Some r =>
                  match parse_value fuel r with
                  | Some (v, r) =>
                      match skip_space r with
                      | String c r' =>
                          if Ascii.eqb c "," then parse_members fuel r' (<[key := v]> acc)
                          else if Ascii.eqb c "}" then Some (JObject (<[key := v]> acc), r')
                          else None
                      | EmptyString => None
                      end
                  | None => None
                  end
              | None => None
              end
          | None => None
          end
      | None => None
      end
  end.

(** The whole text must be one value. *)
Definition parse (s : string) : option (value Z) :=
  match parse_value (S (String.length s)) s with
  | Some (v, r) => if String.eqb (skip_space r) "" then Some v else None
  | None => None
  end.

Definition hex_digit (n : nat) : ascii :=
  ascii_of_nat (if (n <? 10)%nat then 48 + n else 87 + n).

Definition escape_char (c : ascii) : string :=
  if Ascii.eqb c DQ then String "\" (String DQ "")
  else if Ascii.eqb c "\" then "\\"
  else if Ascii.eqb c "008" then "\b"
  else if Ascii.eqb c "012" then "\f"
  else if Ascii.eqb c "010" then "\n"
  else if Ascii.eqb c "013" then "\r"
  else if Ascii.eqb c "009" then "\t"
  else if (nat_of_ascii c <? 32)%nat
  then "\u00" +:+ String (hex_digit (nat_of_ascii c / 16))
                   (String (hex_digit (nat_of_ascii c mod 16)) "")
  else String c "".

Fixpoint escape (s : string) : string :=
  match s with
  | EmptyString => EmptyString
  | String c r => escape_char c +:+ escape r
  end.

(** Inside an array [undefined] prints as [null]; a member of an object
    whose value is [undefined] is left out. *)
Fixpoint stringify (v : value Z) : string :=
  match v with
  | JUndefined => "null"
  | JNull => "null"
  | JBool true => "true"
  | JBool false => "false"
  | JNumber n => pretty n
  | JString s => quoted (escape s)
  | JArray items => "[" +:+ String.concat "," (stringify <$> items) +:+ "]"
  | JObject props =>
      let members :=
        (λ v, match v with JUndefined => None | _ => Some (stringify v) end) <$> props in
      "{" +:+ String.concat ","
                ((λ '(k, s), quoted (escape k) +:+ ":" +:+ s) <$> map_to_list (omap id members))
          +:+ "}"
  end.

#[export] Instance runtime : Runtime Z := {|
  Number_lit := id;
  JSON_parse := parse;
  JSON_stringify := stringify;
|}.

(** Collaborators to run [supplyData] with: a proxy agent is named by
    the URL it serves, a callback and a handler by their names. *)
#[export] Instance host : LmChatVercelAiGatewayPlus.Host Z := {|
  LmChatVercelAiGatewayPlus.Dispatcher := string;
  LmChatVercelAiGatewayPlus.Callback := string;
  LmChatVercelAiGatewayPlus.Handler := list string;
  LmChatVercelAiGatewayPlus.getProxyAgent := λ baseURL, baseURL;
  LmChatVercelAiGatewayPlus.N8nLlmTracing := λ _, "N8nLlmTracing";
  LmChatVercelAiGatewayPlus.openAiFailedAttemptHandler := ["openAiFailedAttemptHandler"];
  LmChatVercelAiGatewayPlus.makeN8nLlmFailedAttemptHandler :=
    λ _ handler, "n8nLlmFailedAttemptHandler" :: handler;
|}.

(** An execution context that resolves the credential of the node to
    [credentials], the model to [openai/gpt-4o], and the options to
    [options]; the user parameter has no value. *)
Definition context (credentials : Types.VercelAiGatewayPlusCredential Z)
    (options : option (LmChatVercelAiGatewayPlus.NodeOptions Z))
    : LmChatVercelAiGatewayPlus.ISupplyDataFunctions Z :=
  {| LmChatVercelAiGatewayPlus.getCredentials := λ name,
       if String.eqb name "vercelAiGatewayPlusApi" then inr credentials
       else inl (Error "Node does not have any credentials set");
     LmChatVercelAiGatewayPlus.getNodeParameter_model := λ _, inr "openai/gpt-4o";
     LmChatVercelAiGatewayPlus.getNodeParameter_user := λ _, None;
     LmChatVercelAiGatewayPlus.getNodeParameter_options := λ _, options |}.

(** An execution context whose host cannot resolve the credential. *)
Definition failing_context : LmChatVercelAiGatewayPlus.ISupplyDataFunctions Z :=
  {| LmChatVercelAiGatewayPlus.getCredentials := λ _,
       inl (Error "Node does not have any credentials set");
     LmChatVercelAiGatewayPlus.getNodeParameter_model := λ _, inr "openai/gpt-4o";
     LmChatVercelAiGatewayPlus.getNodeParameter_user := λ _, None;
     LmChatVercelAiGatewayPlus.getNodeParameter_options := λ _, None |}.

(** A credential of the node with the base URL [url] and no override. *)
Definition credential (url : option string) : Types.VercelAiGatewayPlusCredential Z :=
  {| Types.apiKey := "key";
     Types.url := url;
     Types.additionalHeaders := JUndefined;
     Types.additionalQuery := JUndefined |}.

(** Options that ask for JSON mode and set a timeout. *)
Definition json_options : LmChatVercelAiGatewayPlus.NodeOptions Z :=
  {| LmChatVercelAiGatewayPlus.frequencyPenalty := None;
     LmChatVercelAiGatewayPlus.maxTokens := None;
     LmChatVercelAiGatewayPlus.maxRetries := None;
     LmChatVercelAiGatewayPlus.timeout := Some 5000%Z;
     LmChatVercelAiGatewayPlus.presencePenalty := None;
     LmChatVercelAiGatewayPlus.temperature := None;
     LmChatVercelAiGatewayPlus.topP := None;
     LmChatVercelAiGatewayPlus.responseFormat := Some LmChatVercelAiGatewayPlus.json_object |}.

(** Request options with one header and one further field. *)
Definition request_options : IHttpRequestOptions Z :=
  {| baseURL := Some "https://ai-gateway.vercel.sh/v1";
     url := "/models";
     method := Some "GET";
     headers := Some {[ "accept" := JString "application/json" ]};
     qs := None;
     body := None;
     others := {[ "json" := JBool true ]} |}.

(** A store that holds [request_options] at every reference. *)
Definition initial_store : store Z := λ _, request_options.

(** The text [{"x-team":"blue"}]. *)
Definition team_blue : string :=
  "{" +:+ quoted "x-team" +:+ ":" +:+ quoted "blue" +:+ "}".

(** The text [{"x":1}]. *)
Definition x_one : string := "{" +:+ quoted "x" +:+ ":1}".

(** The text [{"__proto__":"x"}]. *)
Definition proto_x : string :=
  "{" +:+ quoted "__proto__" +:+ ":" +:+ quoted "x" +:+ "}".

(** A decrypted credential object with both overrides as JSON text. *)
Definition credentials_object : gmap string (value Z) :=
  {[ "apiKey" := JString "key";
     "url" := JString "https://ai-gateway.vercel.sh/v1";
     "additionalHeaders" := JString team_blue;
     "additionalQuery" := JString x_one ]}.

(** A decrypted credential object whose fields other than the key hold
    the defaults the property list declares. *)
Definition default_credentials_object : gmap string (value Z) :=
  {[ "apiKey" := JString "key";
     "url" := JString "https://ai-gateway.vercel.sh/v1";
     "additionalHeaders" := JString "";
     "additionalQuery" := JString "" ]}.

(** A credential of the node with both overrides as JSON text. *)
Definition credential_with_overrides : Types.VercelAiGatewayPlusCredential Z :=
  {| Types.apiKey := "key";
     Types.url := Some "https://ai-gateway.vercel.sh/v1";
     Types.additionalHeaders := JString team_blue;
     Types.additionalQuery := JString x_one |}.

(** The text ["{}"]: a JSON string whose content is the text of an
    object. *)
Definition quoted_object : string := quoted "{}".

(** Request options without headers and without a query string. *)
Definition bare_request_options : IHttpRequestOptions Z :=
  {| baseURL := Some "https://ai-gateway.vercel.sh/v1";
     url := "/models";
     method := Some "GET";
     headers := None;
     qs := None;
     body := None;
     others := ∅ |}.

(** A store that holds [bare_request_options] at every reference. *)
Definition bare_store : store Z := λ _, bare_request_options.

(** A decrypted credential object whose header override is not JSON and
    which has no query override. *)
Definition unusable_credentials_object : gmap string (value Z) :=
  {[ "apiKey" := JString "key";
     "additionalHeaders" := JString "not json" ]}.

(** An object with two entries. *)
Definition two_entries : gmap string (value Z) :=
  {[ "a" := JString "b"; "x" := JNumber 1%Z ]}.

End Reference.

(** ** Vocabulary of the statements *)

Module Spec.

Section with_runtime.
Context {number : Type} {RT : Runtime number}.

(** What an entry contributes to the normalized mapping: nothing when
    its value is [null] or [undefined], a string value as it is, the
    JSON serialization of any other value. *)
Definition entry_string (val : value number) : option string :=
  match val with
  | JUndefined | JNull => None
  | JString s => Some s
  | _ => Some (JSON_stringify val)
  end.

(** The entries of an object that have a string to contribute. *)
Definition contributions (props : gmap string (value number)) : gmap string string :=
  omap entry_string props.

(** The value [toRecord] works on: the input itself, or what a string
    input parses to. *)
Definition source_of (v : value number) : option (value number) :=
  match v with
  | JString text => JSON_parse text
  | _ => Some v
  end.

(** A non-null, non-array object. *)
Definition plain_object (v : value number) : Prop :=
  ∃ props, v = JObject props.

(** The fixed headers of [authenticate]. *)
Definition fixed_headers (apiKey : string) : gmap string string :=
  {[ "Authorization" := "Bearer " +:+ apiKey;
     "http-referer" := "https://n8n.io/";
     "x-title" := "n8n" ]}.

(** [n] times the character ['/']. *)
Fixpoint slashes (n : nat) : string :=
  match n with
  | O => EmptyString
  | S n => String "/" (slashes n)
  end.

(** The string [toRecord] stores for a value that is neither [null] nor
    [undefined]: [typeof val === 'string' ? val : JSON.stringify(val)]. *)
Definition entry_text (val : value number) : string :=
  match val with
  | JString s => s
  | _ => JSON_stringify val
  end.

(** The two attribution headers the node starts from. *)
Definition attribution_headers : gmap string string :=
  {[ "http-referer" := "https://n8n.io/"; "x-title" := "n8n" ]}.

(** An override field that holds nothing to normalize: it is missing,
    [null], or a text that does not parse. *)
Definition no_override (v : value number) : Prop :=
  v = JUndefined ∨ v = JNull ∨ ∃ text, v = JString text ∧ JSON_parse text = None.

End with_runtime.

(** A client is in JSON mode when its model keyword arguments carry a
    response format of type [json_object]. *)
Definition json_mode {number : Type} {HT : LmChatVercelAiGatewayPlus.Host number}
    (client : LmChatVercelAiGatewayPlus.ChatOpenAI (number := number)) : Prop :=
  ∃ kwargs,
    LmChatVercelAiGatewayPlus.modelKwargs client = Some kwargs ∧
    LmChatVercelAiGatewayPlus.response_format kwargs = LmChatVercelAiGatewayPlus.json_object.

End Spec.

Import Spec.

(** ** Properties of [toRecord] *)

Section toRecord_properties.
Context {number : Type} {RT : Runtime number}.

Import VercelAiGatewayPlusApi.

(** The callback of [reduce]. *)
Local Abbreviation step :=
  (λ (acc : gmap string string) '(key, val),
     if nullish val then acc
     else assign acc key
            (match val with
             | JString s => s
             | _ => JSON_stringify val
             end)).

Lemma step_entry_string (acc : gmap string string) (key : string) (val : value number) :
  step acc (key, val) =
    match entry_string val with
    | Some s => assign acc key s
    | None => acc
    end.
Proof. by destruct val. Qed.

Lemma assign_lookup (acc : gmap string string) (key s k : string) :
  assign acc key s !! k =
    if decide (key = k ∧ k ≠ "__proto__") then Some s else acc !! k.
Proof.
  unfold assign. destruct (decide (key = "__proto__")) as [->|Hkey].
  - rewrite decide_False; [done|]. intros [<- ?]. done.
  - rewrite lookup_insert. destruct (decide (key = k)) as [->|Hne].
    + by rewrite decide_True.
    + rewrite decide_False; [done|]. by intros [? _].
Qed.

(** One pass of [reduce] over entries with distinct keys: a key other
    than [__proto__] ends with the string its entry contributes, and
    keeps what the accumulator held otherwise. *)
Lemma reduce_lookup (l : list (string * value number)) (acc : gmap string string) (k : string) :
  NoDup l.*1 →
  foldl step acc l !! k =
    match (if decide (k = "__proto__") then None
           else (list_to_map l : gmap string (value number)) !! k ≫= entry_string) with
    | Some s => Some s
    | None => acc !! k
    end.
Proof.
  revert acc. induction l as [|[k0 v0] l IH]; intros acc Hnd.
  - simpl. rewrite lookup_empty. by case_decide.
  - apply NoDup_cons in Hnd as [Hk0 Hnd].
    change (foldl step acc ((k0, v0) :: l)) with (foldl step (step acc (k0, v0)) l).
    rewrite (IH _ Hnd), step_entry_string. clear IH.
    destruct (decide (k = "__proto__")) as [->|Hk].
    { destruct (entry_string v0); [|done].
      rewrite assign_lookup, decide_False; [done|]. by intros [_ ?]. }
    rewrite list_to_map_cons, lookup_insert.
    destruct (decide (k0 = k)) as [->|Hne].
    + rewrite (not_elem_of_list_to_map_1 l k Hk0). simpl.
      destruct (entry_string v0); [|done].
      rewrite assign_lookup, decide_True; done.
    + destruct (list_to_map l !! k ≫= entry_string); [done|].
      destruct (entry_string v0); [|done].
      rewrite assign_lookup, decide_False; [done|]. by intros [? _].
Qed.

(** The order in which [Object.entries] lists the entries of an object
    does not show in what [reduce] builds. *)
Lemma reduce_order_irrelevant (l l' : list (string * value number)) (acc : gmap string string) :
  NoDup l.*1 → l ≡ₚ l' → foldl step acc l = foldl step acc l'.
Proof.
  intros Hnd Hperm. apply map_eq; intros k.
  assert (Hnd' : NoDup l'.*1) by by rewrite <- Hperm.
  rewrite !reduce_lookup by done.
  by rewrite (list_to_map_proper (M := gmap string) l l' Hnd Hperm).
Qed.

(** The mapping [reduce] builds from an object. *)
Lemma reduce_entries (props : gmap string (value number)) :
  foldl step ∅ (Object_entries (JObject props)) = contributions (delete "__proto__" props).
Proof.
  apply map_eq; intros k. simpl.
  rewrite reduce_lookup by apply NoDup_fst_map_to_list.
  rewrite list_to_map_to_list, lookup_empty.
  unfold contributions. rewrite lookup_omap, lookup_delete.
  destruct (decide (k = "__proto__")) as [->|Hk].
  - by rewrite decide_True.
  - rewrite decide_False by done. by destruct (props !! k ≫= entry_string).
Qed.

Lemma Object_keys_length {V} (o : gmap string V) :
  length (Object_keys o) = size o.
Proof. unfold Object_keys. by rewrite length_fmap, length_map_to_list. Qed.

(** [toRecord] on a plain object. *)
Lemma toRecord_object (props : gmap string (value number)) :
  toRecord (JObject props) =
    let entries := contributions (delete "__proto__" props) in
    if decide (entries = ∅) then None else Some entries.
Proof.
  unfold toRecord. cbn [nullish typeof is_null Array_isArray negb orb String.eqb].
  change (String.eqb "object" "object") with true. cbn [negb orb].
  rewrite reduce_entries, Object_keys_length. cbn zeta.
  destruct (decide (contributions (delete "__proto__" props) = ∅)) as [->|Hne].
  - by rewrite map_size_empty.
  - rewrite bool_decide_true; [done|].
    apply Nat.neq_0_lt_0. by rewrite map_size_empty_iff.
Qed.

(** [toRecord] in terms of the value it works on. *)
Lemma toRecord_source (v : value number) :
  toRecord v =
    match source_of v with
    | Some (JObject props) => toRecord (JObject props)
    | _ => None
    end.
Proof.
  destruct v as [| |b|n|text|items|props]; try done.
  simpl source_of. unfold toRecord at 1. cbn [nullish].
  destruct (JSON_parse text) as [[| |b|n|text'|items|props]|]; done.
Qed.

End toRecord_properties.

(** ** Properties of the spread and of the store *)

Section spread_properties.
Context {V : Type}.

Lemma spread_two (a b : gmap string V) : spread [a; b] = b ∪ a.
Proof. unfold spread. simpl. by rewrite (right_id_L ∅ (∪)). Qed.

Lemma spread_three (a b c : gmap string V) : spread [a; b; c] = c ∪ (b ∪ a).
Proof. unfold spread. simpl. by rewrite (right_id_L ∅ (∪)). Qed.

(** A later object of a spread overrides an earlier one. *)
Lemma spread_two_lookup (a b : gmap string V) (k : string) :
  spread [a; b] !! k =
    match b !! k with
    | Some v => Some v
    | None => a !! k
    end.
Proof. rewrite spread_two, lookup_union. by destruct (b !! k), (a !! k). Qed.

Lemma spread_three_lookup (a b c : gmap string V) (k : string) :
  spread [a; b; c] !! k =
    match c !! k with
    | Some v => Some v
    | None =>
        match b !! k with
        | Some v => Some v
        | None => a !! k
        end
    end.
Proof.
  rewrite spread_three, !lookup_union.
  by destruct (c !! k), (b !! k), (a !! k).
Qed.

End spread_properties.

Section authenticate_properties.
Context {number : Type} {RT : Runtime number}.

Import VercelAiGatewayPlusApi.

Lemma of_record_lookup (r : gmap string string) (k : string) :
  (of_record r : gmap string (value number)) !! k = JString <$> r !! k.
Proof. unfold of_record. apply lookup_fmap. Qed.

(** Without a usable key [authenticate] throws before it touches the
    store. *)
Lemma authenticate_throws (credentials : gmap string (value number)) (r : ref)
    (σ : store number) :
  (∀ apiKey, get credentials "apiKey" = JString apiKey → apiKey = "") →
  authenticate credentials r σ = (inl API_KEY_REQUIRED, σ).
Proof.
  intros Hkey. unfold authenticate.
  destruct (get credentials "apiKey") as [| |b|n|apiKey|items|props]; try done.
  by rewrite (Hkey apiKey eq_refl).
Qed.

(** With a key, [authenticate] returns the reference it was given; the
    store changes at that reference only, and there in the fields
    [headers] and [qs] only. *)
Lemma authenticate_returns (credentials : gmap string (value number)) (r : ref)
    (σ : store number) (apiKey : string) :
  get credentials "apiKey" = JString apiKey →
  apiKey ≠ "" →
  ∃ σ' : store number,
    authenticate credentials r σ = (inr r, σ') ∧
    (∀ r', r' ≠ r → σ' r' = σ r') ∧
    σ' r =
      {| baseURL := baseURL (σ r);
         url := url (σ r);
         method := method (σ r);
         headers :=
           Some (spread [ default ∅ (headers (σ r));
                          of_record (fixed_headers apiKey);
                          of_record (default ∅ (toRecord (get credentials "additionalHeaders"))) ]);
         qs :=
           match toRecord (get credentials "additionalQuery") with
           | Some additionalQuery =>
               Some (spread [ default ∅ (qs (σ r)); of_record additionalQuery ])
           | None => qs (σ r)
           end;
         body := body (σ r);
         others := others (σ r) |}.
Proof.
  intros Hkey Hne. unfold authenticate. rewrite Hkey.
  apply String.eqb_neq in Hne as ->.
  destruct (toRecord (get credentials "additionalQuery")) as [q|];
    (eexists; split; [reflexivity|]; split;
      [ intros r' Hr'; cbn; by rewrite ?decide_False by done
      | cbn; by rewrite ?decide_True by done ]).
Qed.

End authenticate_properties.

(** ** Properties of [strip_trailing_slashes] *)

Section strip_properties.

Import LmChatVercelAiGatewayPlus.

Lemma append_slash_nonempty (t : string) : t +:+ "/" ≠ "".
Proof. by destruct t. Qed.

(** The input is the result followed by slashes only. *)
Lemma strip_decompose (s : string) :
  ∃ n, s = strip_trailing_slashes s +:+ slashes n.
Proof.
  induction s as [|c rest [n IH]]; [by exists 0|].
  simpl. destruct (Ascii.eqb_spec c "/") as [->|Hc]; simpl.
  - destruct (String.eqb_spec (strip_trailing_slashes rest) "") as [Hrest|Hrest].
    + exists (S n). rewrite Hrest in IH.
      change (String "/" rest = String "/" (slashes n)). by f_equal.
    + exists n.
      change (String "/" rest
              = String "/" (strip_trailing_slashes rest +:+ slashes n)).
      by f_equal.
  - exists n.
    change (String c rest = String c (strip_trailing_slashes rest +:+ slashes n)).
    by f_equal.
Qed.

(** The result does not end with a slash. *)
Lemma strip_no_trailing_slash (s t : string) :
  strip_trailing_slashes s ≠ t +:+ "/".
Proof.
  revert t. induction s as [|c rest IH]; intros t; simpl.
  { intros Heq. by apply (append_slash_nonempty t). }
  destruct (Ascii.eqb_spec c "/") as [->|Hc]; simpl.
  - destruct (String.eqb_spec (strip_trailing_slashes rest) "") as [Hrest|Hrest].
    + intros Heq. by apply (append_slash_nonempty t).
    + destruct t as [|c' t']; simpl; intros [= Heq]; [done|].
      by apply (IH t').
  - destruct t as [|c' t']; simpl; intros [= Heq Heq']; [done|].
    by apply (IH t').
Qed.

Lemma strip_slashes (n : nat) : strip_trailing_slashes (slashes n) = "".
Proof. induction n as [|n IH]; [done|]. simpl. by rewrite IH. Qed.

(** The result is empty exactly for the strings made of slashes. *)
Lemma strip_empty_iff (s : string) :
  strip_trailing_slashes s = "" ↔ ∃ n, s = slashes n.
Proof.
  split.
  - intros Hs. destruct (strip_decompose s) as [n Hn].
    exists n. by rewrite Hs in Hn.
  - intros [n ->]. apply strip_slashes.
Qed.

(** A string without a trailing slash is recovered from any number of
    slashes put after it. *)
Lemma strip_append_slashes (t : string) (n : nat) :
  (∀ t', t ≠ t' +:+ "/") →
  strip_trailing_slashes (t +:+ slashes n) = t.
Proof.
  induction t as [|c t IH]; intros Ht; simpl.
  { apply strip_slashes. }
  rewrite IH.
  - destruct (Ascii.eqb_spec c "/") as [->|Hc]; [|done]. simpl.
    destruct (String.eqb_spec t "") as [->|Hne]; [|done].
    by destruct (Ht "").
  - intros t' ->. by apply (Ht (String c t')).
Qed.

Lemma or_undefined_default (s : string) : default "" (or_undefined s) = s.
Proof. unfold or_undefined. by destruct (String.eqb_spec s "") as [->|]. Qed.

End strip_properties.

(** ** Properties of [supplyData] *)

Section supplyData_properties.
Context {number : Type} {RT : Runtime number} {HT : LmChatVercelAiGatewayPlus.Host number}.

Import LmChatVercelAiGatewayPlus.

(** The two updates of [configuration] leave its base URL and its fetch
    options as first built. *)
Lemma configuration_updates_frame (c : ClientOptions)
    (additionalHeaders additionalQuery : option (gmap string string)) :
  let c1 :=
    match additionalHeaders with
    | Some h => set_defaultHeaders (spread [defaultHeaders c; h]) c
    | None => c
    end in
  let c2 :=
    match additionalQuery with
    | Some q => set_defaultQuery (spread [default ∅ (defaultQuery c1); q]) c1
    | None => c1
    end in
  baseURL c2 = baseURL c ∧ fetchOptions c2 = fetchOptions c.
Proof. by destruct additionalHeaders, additionalQuery. Qed.

(** Once the credentials and the model name are resolved, [supplyData]
    returns a client, built from the credentials and the options as
    follows. *)
Lemma supplyData_returns (this : ISupplyDataFunctions number) (itemIndex : nat)
    (credentials : Types.VercelAiGatewayPlusCredential number) (modelName : string) :
  getCredentials this "vercelAiGatewayPlusApi" = inr credentials →
  getNodeParameter_model this itemIndex = inr modelName →
  let options := default no_options (getNodeParameter_options this itemIndex) in
  let stripped := strip_trailing_slashes (default "" (Types.url credentials)) in
  ∃ client : ChatOpenAI,
    supplyData this itemIndex = inr {| response := client |} ∧
    baseURL (configuration client) = or_undefined stripped ∧
    fetchOptions (configuration client) =
      (if String.eqb stripped "" then None
       else Some {| dispatcher := getProxyAgent stripped |}) ∧
    client_timeout client = default (Number_lit 60000) (timeout options) ∧
    client_maxRetries client = default (Number_lit 2) (maxRetries options) ∧
    modelKwargs client =
      match responseFormat options with
      | Some format => Some {| response_format := format |}
      | None => None
      end.
Proof.
  intros Hcred Hmodel options stripped. unfold supplyData.
  rewrite Hcred, Hmodel. eexists. split; [reflexivity|].
  cbn [configuration client_timeout client_maxRetries modelKwargs].
  split_and!; try reflexivity.
  - by destruct (toRecord (Types.additionalHeaders credentials)),
      (toRecord (Types.additionalQuery credentials)).
  - by destruct (toRecord (Types.additionalHeaders credentials)),
      (toRecord (Types.additionalQuery credentials)).
Qed.

End supplyData_properties.

(** ** The claims *)

(** C1 (the code departs from the claim on the key [__proto__]).
    [toRecord v] is absent unless the value it works on ([v], or what
    the string [v] parses to) is a plain object; for a plain object it
    is the mapping of the contributions of the entries whose key is not
    [__proto__], and absent when there is none.  So [toRecord] of the
    empty object and of [{a: null}] are absent, and the text [{"x":1}]
    gives [{x: "1"}], like the object it parses to.  An entry with the
    key [__proto__] is lost whatever its value: the object whose only
    entry is [__proto__: "x"] normalizes to absent, directly and through
    its JSON text, and next to an entry [a: "b"] only the latter is
    kept; the claim has the mapping with every entry whose value is not
    [null] or [undefined]. *)
Theorem toRecord_loses_proto_entry :
  (∀ (number : Type) (RT : Runtime number) (v : value number),
     VercelAiGatewayPlusApi.toRecord v =
       match source_of v with
       | Some (JObject props) =>
           let entries := contributions (delete "__proto__" props) in
           if decide (entries = ∅) then None else Some entries
       | _ => None
       end) ∧
  (∀ (number : Type) (RT : Runtime number),
     VercelAiGatewayPlusApi.toRecord (JObject (∅ : gmap string (value number))) = None ∧
     VercelAiGatewayPlusApi.toRecord
       (JObject ({[ "a" := JNull ]} : gmap string (value number))) = None ∧
     contributions ({[ "__proto__" := JString "x" ]} : gmap string (value number))
       = {[ "__proto__" := "x" ]} ∧
     VercelAiGatewayPlusApi.toRecord
       (JObject ({[ "__proto__" := JString "x" ]} : gmap string (value number))) = None ∧
     VercelAiGatewayPlusApi.toRecord
       (JObject ({[ "__proto__" := JString "x"; "a" := JString "b" ]}
                   : gmap string (value number)))
       = Some {[ "a" := "b" ]}) ∧
  Reference.parse Reference.x_one = Some (JObject {[ "x" := JNumber 1%Z ]}) ∧
  VercelAiGatewayPlusApi.toRecord (RT := Reference.runtime) (JString Reference.x_one)
    = Some {[ "x" := "1" ]} ∧
  VercelAiGatewayPlusApi.toRecord (RT := Reference.runtime)
      (JObject {[ "x" := JNumber 1%Z ]})
    = Some {[ "x" := "1" ]} ∧
  Reference.parse Reference.proto_x = Some (JObject {[ "__proto__" := JString "x" ]}) ∧
  VercelAiGatewayPlusApi.toRecord (RT := Reference.runtime) (JString Reference.proto_x) = None.
Proof.
  split_and!.
  - intros number RT v. rewrite toRecord_source.
    destruct (source_of v) as [[| |b|n|s|items|props]|]; try done.
    apply toRecord_object.
  - intros number RT. split_and!.
    + rewrite toRecord_object, delete_empty. done.
    + rewrite toRecord_object, delete_singleton_ne by done.
      unfold contributions. by rewrite omap_singleton_None.
    + unfold contributions. by rewrite (omap_singleton_Some _ _ _ "x").
    + rewrite toRecord_object, delete_singleton_eq. done.
    + rewrite toRecord_object, delete_insert_eq, delete_singleton_ne by done.
      unfold contributions. rewrite (omap_singleton_Some _ _ _ "b") by done.
      cbn zeta. rewrite decide_False; [done|]. apply insert_non_empty.
  - by vm_compute.
  - by vm_compute.
  - by vm_compute.
  - by vm_compute.
  - by vm_compute.
Qed.

(** C5.  The two copies of [toRecord], in the credential file and in
    the node file, return the same result on every input, for every
    behaviour of [JSON.parse] and [JSON.stringify]. *)
Theorem toRecord_copies_agree :
  ∀ (number : Type) (R : Runtime number) (v : value number),
    VercelAiGatewayPlusApi.toRecord v = LmChatVercelAiGatewayPlus.toRecord v.
Proof.
  intros number R v.
  unfold VercelAiGatewayPlusApi.toRecord, LmChatVercelAiGatewayPlus.toRecord.
  destruct (nullish v); [done|].
  destruct v; try done.
Qed.

(** C9.  Both credential types declare the same test request: a [POST]
    to [/chat/completions] under the expression for the base URL of the
    credential, with exactly the headers [http-referer: https://n8n.io/]
    and [x-title: n8n], and a body of exactly three members: the model
    [openai/gpt-4.1-nano], one message of role [user] with the content
    [test], and [max_tokens] 1. *)
Theorem test_requests_identical :
  ∀ (number : Type) (R : Runtime number),
    VercelAiGatewayPlusApi.test = AdalinkAiGatewayApi.test ∧
    let r := request (number := number) AdalinkAiGatewayApi.test in
    method r = Some "POST" ∧
    url r = "/chat/completions" ∧
    baseURL r = Some "={{ $credentials.url }}" ∧
    (∃ h, headers r = Some h ∧
          h !! "http-referer" = Some (JString "https://n8n.io/") ∧
          h !! "x-title" = Some (JString "n8n") ∧
          size h = 2) ∧
    (∃ b, body r = Some (JObject b) ∧
          b !! "model" = Some (JString "openai/gpt-4.1-nano") ∧
          b !! "messages" =
            Some (JArray [ JObject {[ "role" := JString "user";
                                      "content" := JString "test" ]} ]) ∧
          b !! "max_tokens" = Some (JNumber (Number_lit 1)) ∧
          size b = 3).
Proof.
  intros number R. split; [reflexivity|]. cbn zeta.
  split_and!; try reflexivity.
  - eexists. split; [reflexivity|]. split_and!; by vm_compute.
  - eexists. split; [reflexivity|]. split_and!; by vm_compute.
Qed.

(** C3.  When the key of the credential is missing, is not a string, or
    is the empty string, [authenticate] throws the error with the fixed
    message and the store is the one it was given: no field of the
    request options, and no other object, has been written. *)
Theorem authenticate_rejects_unusable_key :
  ∀ (number : Type) (RT : Runtime number)
    (credentials : gmap string (value number)) (requestOptions : ref) (σ : store number),
    (credentials !! "apiKey" = None ∨
     (∃ v, credentials !! "apiKey" = Some v ∧ typeof v ≠ "string") ∨
     credentials !! "apiKey" = Some (JString "")) →
    VercelAiGatewayPlusApi.authenticate credentials requestOptions σ
      = (inl (Error "API key is required for Vercel AI Gateway Plus."), σ).
Proof.
  intros number RT credentials requestOptions σ Hkey.
  apply authenticate_throws. intros apiKey. unfold get.
  destruct Hkey as [-> | [(v & -> & Hv) | ->]]; simpl.
  - done.
  - intros ->. by destruct Hv.
  - by intros [= <-].
Qed.

Lemma authenticate_rejects_unusable_key_witness :
  (({[ "apiKey" := JString "" ]} : gmap string (value Z)) !! "apiKey" = None ∨
   (∃ v, ({[ "apiKey" := JString "" ]} : gmap string (value Z)) !! "apiKey" = Some v
         ∧ typeof v ≠ "string") ∨
   ({[ "apiKey" := JString "" ]} : gmap string (value Z)) !! "apiKey" = Some (JString "")) ∧
  VercelAiGatewayPlusApi.authenticate (RT := Reference.runtime)
      {[ "apiKey" := JString "" ]} 0 Reference.initial_store
    = (inl (Error "API key is required for Vercel AI Gateway Plus."),
       Reference.initial_store).
Proof.
  assert (Hkey : ({[ "apiKey" := JString "" ]} : gmap string (value Z)) !! "apiKey"
                 = Some (JString "")) by reflexivity.
  split.
  - right. right. exact Hkey.
  - apply (authenticate_rejects_unusable_key Z Reference.runtime).
    right. right. exact Hkey.
Defined.

(** C4.  With a non-empty string key, [authenticate] returns the request
    options with headers that are, key by key: the normalized override
    when [additionalHeaders] has one, else the fixed header
    ([Authorization: Bearer <apiKey>], [http-referer: https://n8n.io/],
    [x-title: n8n]), else the header that was there.  So every
    normalized override is in the result, and an override wins over
    a fixed header.  When [additionalHeaders] is the text
    [{"x-team":"blue"}], which parses to the object with that entry,
    the headers hold [x-team: blue], the bearer token and the two
    attribution headers. *)
Theorem authenticate_merges_headers :
  ∀ (number : Type) (RT : Runtime number)
    (credentials : gmap string (value number)) (requestOptions : ref) (σ : store number)
    (apiKey : string),
    get credentials "apiKey" = JString apiKey →
    apiKey ≠ "" →
    ∃ (σ' : store number) (h : gmap string (value number)),
      VercelAiGatewayPlusApi.authenticate credentials requestOptions σ
        = (inr requestOptions, σ') ∧
      headers (σ' requestOptions) = Some h ∧
      let existing := default ∅ (headers (σ requestOptions)) in
      let overrides :=
        default ∅ (VercelAiGatewayPlusApi.toRecord (get credentials "additionalHeaders")) in
      (∀ k, h !! k =
              match overrides !! k with
              | Some s => Some (JString s)
              | None =>
                  match fixed_headers apiKey !! k with
                  | Some s => Some (JString s)
                  | None => existing !! k
                  end
              end) ∧
      (∀ k s, overrides !! k = Some s → h !! k = Some (JString s)) ∧
      (∀ k s, overrides !! k = None → fixed_headers apiKey !! k = Some s →
              h !! k = Some (JString s)) ∧
      (get credentials "additionalHeaders" = JString Reference.team_blue →
       JSON_parse Reference.team_blue = Some (JObject {[ "x-team" := JString "blue" ]}) →
       h !! "x-team" = Some (JString "blue") ∧
       h !! "Authorization" = Some (JString ("Bearer " +:+ apiKey)) ∧
       h !! "http-referer" = Some (JString "https://n8n.io/") ∧
       h !! "x-title" = Some (JString "n8n")).
Proof.
  intros number RT credentials requestOptions σ apiKey Hkey Hne.
  destruct (authenticate_returns credentials requestOptions σ apiKey Hkey Hne)
    as (σ' & Hrun & _ & Hobj).
  eexists σ', _. split; [exact Hrun|]. split; [by rewrite Hobj|]. cbn zeta.
  set (existing := default ∅ (headers (σ requestOptions))).
  set (overrides :=
         default ∅ (VercelAiGatewayPlusApi.toRecord (get credentials "additionalHeaders"))).
  assert (Hcascade : ∀ k,
    spread [existing; of_record (fixed_headers apiKey); of_record overrides] !! k =
      match overrides !! k with
      | Some s => Some (JString s)
      | None =>
          match fixed_headers apiKey !! k with
          | Some s => Some (JString s)
          | None => existing !! k
          end
      end).
  { intros k. rewrite spread_three_lookup, !of_record_lookup.
    by destruct (overrides !! k), (fixed_headers apiKey !! k). }
  split_and!.
  - exact Hcascade.
  - intros k s Hk. by rewrite Hcascade, Hk.
  - intros k s Hk Hfixed. by rewrite Hcascade, Hk, Hfixed.
  - intros Hadd Hparse.
    assert (Hover : overrides = {[ "x-team" := "blue" ]}).
    { unfold overrides. rewrite Hadd, toRecord_source. simpl source_of.
      rewrite Hparse, toRecord_object.
      rewrite delete_singleton_ne by done.
      unfold contributions. rewrite (omap_singleton_Some _ _ _ "blue") by done.
      cbn zeta. rewrite decide_False; [done|]. apply insert_non_empty. }
    rewrite !Hcascade, Hover. split_and!; reflexivity.
Qed.

Lemma authenticate_merges_headers_witness :
  get Reference.credentials_object "apiKey" = JString "key" ∧
  "key" ≠ "" ∧
  ∃ (σ' : store Z) (h : gmap string (value Z)),
    VercelAiGatewayPlusApi.authenticate (RT := Reference.runtime)
        Reference.credentials_object 0 Reference.initial_store
      = (inr 0, σ') ∧
    headers (σ' 0) = Some h ∧
    h !! "x-team" = Some (JString "blue") ∧
    h !! "Authorization" = Some (JString "Bearer key") ∧
    h !! "http-referer" = Some (JString "https://n8n.io/") ∧
    h !! "x-title" = Some (JString "n8n") ∧
    h !! "accept" = Some (JString "application/json").
Proof.
  assert (Hkey : get Reference.credentials_object "apiKey" = JString (number := Z) "key")
    by reflexivity.
  assert (Hne : "key" ≠ "") by discriminate.
  split; [exact Hkey|]. split; [exact Hne|].
  destruct (authenticate_merges_headers Z Reference.runtime
              Reference.credentials_object 0 Reference.initial_store "key" Hkey Hne)
    as (σ' & h & Hrun & Hh & Hcascade & _ & _ & Hexample).
  exists σ', h. split; [exact Hrun|]. split; [exact Hh|].
  destruct Hexample as (Hteam & Hauth & Hreferer & Htitle); [reflexivity|reflexivity|].
  split; [exact Hteam|]. split; [exact Hauth|]. split; [exact Hreferer|].
  split; [exact Htitle|].
  rewrite Hcascade. reflexivity.
Defined.

(** C8.  With a non-empty string key, [authenticate] returns the very
    reference it was given.  In the store nothing changes at any other
    reference, and at this one the fields other than [headers] and [qs]
    keep their values.  [qs] keeps its value when [additionalQuery]
    normalizes to absent; otherwise it becomes the merge of the
    normalized entries over the entries that were there. *)
Theorem authenticate_frame :
  ∀ (number : Type) (RT : Runtime number)
    (credentials : gmap string (value number)) (requestOptions : ref) (σ : store number)
    (apiKey : string),
    get credentials "apiKey" = JString apiKey →
    apiKey ≠ "" →
    ∃ σ' : store number,
      VercelAiGatewayPlusApi.authenticate credentials requestOptions σ
        = (inr requestOptions, σ') ∧
      (∀ r, r ≠ requestOptions → σ' r = σ r) ∧
      let before := σ requestOptions in
      let after := σ' requestOptions in
      baseURL after = baseURL before ∧
      url after = url before ∧
      method after = method before ∧
      body after = body before ∧
      others after = others before ∧
      match VercelAiGatewayPlusApi.toRecord (get credentials "additionalQuery") with
      | None => qs after = qs before
      | Some additionalQuery =>
          ∃ q, qs after = Some q ∧
               ∀ k, q !! k =
                      match additionalQuery !! k with
                      | Some s => Some (JString s)
                      | None => default ∅ (qs before) !! k
                      end
      end.
Proof.
  intros number RT credentials requestOptions σ apiKey Hkey Hne.
  destruct (authenticate_returns credentials requestOptions σ apiKey Hkey Hne)
    as (σ' & Hrun & Hothers & Hobj).
  exists σ'. split; [exact Hrun|]. split; [exact Hothers|]. cbn zeta.
  rewrite Hobj. cbn [baseURL url method body others qs].
  split_and!; try reflexivity.
  destruct (VercelAiGatewayPlusApi.toRecord (get credentials "additionalQuery"))
    as [additionalQuery|]; [|reflexivity].
  eexists. split; [reflexivity|]. intros k.
  rewrite spread_two_lookup, of_record_lookup.
  by destruct (additionalQuery !! k).
Qed.

Lemma authenticate_frame_witness :
  get Reference.credentials_object "apiKey" = JString "key" ∧
  "key" ≠ "" ∧
  ∃ σ' : store Z,
    VercelAiGatewayPlusApi.authenticate (RT := Reference.runtime)
        Reference.credentials_object 0 Reference.initial_store
      = (inr 0, σ') ∧
    σ' 1 = Reference.initial_store 1 ∧
    url (σ' 0) = "/models" ∧
    others (σ' 0) = {[ "json" := JBool true ]} ∧
    ∃ q, qs (σ' 0) = Some q ∧ q !! "x" = Some (JString "1").
Proof.
  assert (Hkey : get Reference.credentials_object "apiKey" = JString (number := Z) "key")
    by reflexivity.
  assert (Hne : "key" ≠ "") by discriminate.
  split; [exact Hkey|]. split; [exact Hne|].
  destruct (authenticate_frame Z Reference.runtime
              Reference.credentials_object 0 Reference.initial_store "key" Hkey Hne)
    as (σ' & Hrun & Hother & _ & Hurl & _ & _ & Hrest & Hqs).
  exists σ'. split; [exact Hrun|].
  split; [apply Hother; discriminate|].
  split; [exact Hurl|]. split; [exact Hrest|].
  assert (Hquery : VercelAiGatewayPlusApi.toRecord (RT := Reference.runtime)
                     (get Reference.credentials_object "additionalQuery")
                   = Some {[ "x" := "1" ]}) by (vm_compute; reflexivity).
  rewrite Hquery in Hqs. destruct Hqs as (q & Hq & Hlookup).
  exists q. split; [exact Hq|]. rewrite Hlookup. reflexivity.
Defined.

Section node_claims.
Context {number : Type} {RT : Runtime number} {HT : LmChatVercelAiGatewayPlus.Host number}.

Import LmChatVercelAiGatewayPlus.

(** C2.  When the credentials and the model name are resolved,
    [supplyData] returns a client whose model keyword arguments carry
    the response format of the options: of type [json_object] when the
    options say [json_object], of type [text] when they say [text], and
    none when the options have no response format (or there are no
    options).  So the client is in JSON mode exactly when the options
    say [json_object]. *)
Theorem supplyData_response_format
    (this : ISupplyDataFunctions number) (itemIndex : nat)
    (credentials : Types.VercelAiGatewayPlusCredential number) (modelName : string) :
  getCredentials this "vercelAiGatewayPlusApi" = inr credentials →
  getNodeParameter_model this itemIndex = inr modelName →
  ∃ client : ChatOpenAI,
    supplyData this itemIndex = inr {| response := client |} ∧
    let format :=
      responseFormat (default no_options (getNodeParameter_options this itemIndex)) in
    (format = Some json_object →
     modelKwargs client = Some {| response_format := json_object |}) ∧
    (format = Some text →
     modelKwargs client = Some {| response_format := text |}) ∧
    (format = None → modelKwargs client = None) ∧
    (json_mode client ↔ format = Some json_object).
Proof.
  intros Hcred Hmodel.
  destruct (supplyData_returns this itemIndex credentials modelName Hcred Hmodel)
    as (client & Hrun & _ & _ & _ & _ & Hkwargs).
  exists client. split; [exact Hrun|]. cbn zeta. unfold json_mode.
  rewrite Hkwargs.
  destruct (responseFormat (default no_options (getNodeParameter_options this itemIndex)))
    as [[|]|]; split_and!; try done.
  - split; [|done]. by intros (kwargs & [= <-] & Hformat).
  - split; [done|]. intros _. by eexists.
  - split; [|done]. by intros (kwargs & Hnone & _).
Qed.

(** C6.  When the credentials and the model name are resolved,
    [supplyData] returns a client whose timeout is the timeout of the
    options when they have one and the number 60000 otherwise, and whose
    number of retries is that of the options when they have one and 2
    otherwise; the entry [timeout] of the property list declares the
    default 360000, a literal other than 60000, and the entry
    [maxRetries] the default 2. *)
Theorem supplyData_timeout_and_retries
    (this : ISupplyDataFunctions number) (itemIndex : nat)
    (credentials : Types.VercelAiGatewayPlusCredential number) (modelName : string) :
  getCredentials this "vercelAiGatewayPlusApi" = inr credentials →
  getNodeParameter_model this itemIndex = inr modelName →
  ∃ client : ChatOpenAI,
    supplyData this itemIndex = inr {| response := client |} ∧
    let options := default no_options (getNodeParameter_options this itemIndex) in
    client_timeout client =
      match timeout options with
      | Some given => given
      | None => Number_lit 60000
      end ∧
    client_maxRetries client =
      match maxRetries options with
      | Some given => given
      | None => Number_lit 2
      end ∧
    default_ timeoutOption = JNumber (Number_lit 360000) ∧
    default_ maxRetriesOption = JNumber (Number_lit 2) ∧
    (360000 ≠ 60000)%Z.
Proof.
  intros Hcred Hmodel.
  destruct (supplyData_returns this itemIndex credentials modelName Hcred Hmodel)
    as (client & Hrun & _ & _ & Htimeout & Hretries & _).
  exists client. split; [exact Hrun|]. cbn zeta.
  rewrite Htimeout, Hretries.
  by destruct (timeout _), (maxRetries _).
Qed.

(** C7 (corrected).  When the credentials and the model name are
    resolved, [supplyData] returns a client whose configuration is built
    from the URL of the credential without its trailing slashes: the URL
    is that string followed by slashes only, and that string does not
    end with a slash.  When that string is not empty, it is the base URL
    of the configuration and the fetch options hold the proxy agent of
    it.  When it is empty, the configuration has no base URL (the field
    is absent, where the claim has it equal to the empty string) and no
    fetch options, hence no dispatcher: a dispatcher is there exactly
    when that string is not empty.  The URL [https://x/v1/] gives the
    base URL [https://x/v1]. *)
Theorem supplyData_base_url
    (this : ISupplyDataFunctions number) (itemIndex : nat)
    (credentials : Types.VercelAiGatewayPlusCredential number) (modelName : string) :
  getCredentials this "vercelAiGatewayPlusApi" = inr credentials →
  getNodeParameter_model this itemIndex = inr modelName →
  ∃ client : ChatOpenAI,
    supplyData this itemIndex = inr {| response := client |} ∧
    let given := default "" (Types.url credentials) in
    let stripped := strip_trailing_slashes given in
    (∃ n, given = stripped +:+ slashes n) ∧
    (∀ t, stripped ≠ t +:+ "/") ∧
    (stripped ≠ "" →
     baseURL (configuration client) = Some stripped ∧
     fetchOptions (configuration client) = Some {| dispatcher := getProxyAgent stripped |}) ∧
    (stripped = "" →
     baseURL (configuration client) = None ∧
     fetchOptions (configuration client) = None) ∧
    (is_Some (fetchOptions (configuration client)) ↔ stripped ≠ "") ∧
    (Types.url credentials = Some "https://x/v1/" →
     baseURL (configuration client) = Some "https://x/v1").
Proof.
  intros Hcred Hmodel.
  destruct (supplyData_returns this itemIndex credentials modelName Hcred Hmodel)
    as (client & Hrun & Hbase & Hfetch & _).
  exists client. split; [exact Hrun|]. cbn zeta.
  rewrite Hbase, Hfetch. clear Hbase Hfetch.
  split; [apply strip_decompose|].
  split; [apply strip_no_trailing_slash|].
  unfold or_undefined. split_and!.
  - intros Hne. by apply String.eqb_neq in Hne as ->.
  - intros Hempty. by apply String.eqb_eq in Hempty as ->.
  - destruct (String.eqb_spec (strip_trailing_slashes (default "" (Types.url credentials))) "")
      as [Hempty|Hne].
    + split; [by intros [? ?]|done].
    + split; [done|]. intros _. by eexists.
  - intros ->. reflexivity.
Qed.

(** C10.  When the credentials and the model name are resolved and the
    URL of the credential is missing, empty, or made of slashes only,
    the configuration of the client [supplyData] returns has no base
    URL (the field is absent, it is not the empty string) and no fetch
    options, hence no dispatcher. *)
Theorem supplyData_without_base_url
    (this : ISupplyDataFunctions number) (itemIndex : nat)
    (credentials : Types.VercelAiGatewayPlusCredential number) (modelName : string) :
  getCredentials this "vercelAiGatewayPlusApi" = inr credentials →
  getNodeParameter_model this itemIndex = inr modelName →
  (Types.url credentials = None ∨ ∃ n, Types.url credentials = Some (slashes n)) →
  ∃ client : ChatOpenAI,
    supplyData this itemIndex = inr {| response := client |} ∧
    baseURL (configuration client) = None ∧
    baseURL (configuration client) ≠ Some "" ∧
    fetchOptions (configuration client) = None.
Proof.
  intros Hcred Hmodel Hurl.
  destruct (supplyData_returns this itemIndex credentials modelName Hcred Hmodel)
    as (client & Hrun & Hbase & Hfetch & _).
  exists client. split; [exact Hrun|].
  assert (Hstripped : strip_trailing_slashes (default "" (Types.url credentials)) = "").
  { apply strip_empty_iff. destruct Hurl as [-> | [n ->]]; [by exists 0 | by exists n]. }
  rewrite Hbase, Hfetch, Hstripped. done.
Qed.

End node_claims.

Section node_witnesses.

Import LmChatVercelAiGatewayPlus.
Import Reference.

Lemma supplyData_response_format_witness :
  let this := Reference.context (Reference.credential (Some "https://x/v1/"))
                (Some Reference.json_options) in
  getCredentials this "vercelAiGatewayPlusApi"
    = inr (Reference.credential (Some "https://x/v1/")) ∧
  getNodeParameter_model this 0 = inr "openai/gpt-4o" ∧
  ∃ client : ChatOpenAI,
    supplyData this 0 = inr {| response := client |} ∧
    modelKwargs client = Some {| response_format := json_object |} ∧
    json_mode client.
Proof.
  cbn zeta. split; [reflexivity|]. split; [reflexivity|].
  destruct (supplyData_response_format (RT := Reference.runtime) (HT := Reference.host)
              (Reference.context (Reference.credential (Some "https://x/v1/"))
                 (Some Reference.json_options))
              0 (Reference.credential (Some "https://x/v1/")) "openai/gpt-4o"
              eq_refl eq_refl)
    as (client & Hrun & Hjson & _ & _ & Hmode).
  exists client. split; [exact Hrun|].
  split; [apply Hjson; reflexivity|]. apply Hmode. reflexivity.
Defined.

Lemma supplyData_timeout_and_retries_witness :
  let this := Reference.context (Reference.credential (Some "https://x/v1/")) None in
  getCredentials this "vercelAiGatewayPlusApi"
    = inr (Reference.credential (Some "https://x/v1/")) ∧
  getNodeParameter_model this 0 = inr "openai/gpt-4o" ∧
  ∃ client : ChatOpenAI,
    supplyData this 0 = inr {| response := client |} ∧
    client_timeout client = 60000%Z ∧
    client_maxRetries client = 2%Z.
Proof.
  cbn zeta. split; [reflexivity|]. split; [reflexivity|].
  destruct (supplyData_timeout_and_retries (RT := Reference.runtime) (HT := Reference.host)
              (Reference.context (Reference.credential (Some "https://x/v1/")) None)
              0 (Reference.credential (Some "https://x/v1/")) "openai/gpt-4o"
              eq_refl eq_refl)
    as (client & Hrun & Htimeout & Hretries & _).
  exists client. split; [exact Hrun|]. split; [exact Htimeout | exact Hretries].
Defined.

Lemma supplyData_base_url_witness :
  let this := Reference.context (Reference.credential (Some "https://x/v1/")) None in
  getCredentials this "vercelAiGatewayPlusApi"
    = inr (Reference.credential (Some "https://x/v1/")) ∧
  getNodeParameter_model this 0 = inr "openai/gpt-4o" ∧
  ∃ client : ChatOpenAI,
    supplyData this 0 = inr {| response := client |} ∧
    baseURL (configuration client) = Some "https://x/v1" ∧
    fetchOptions (configuration client)
      = Some {| dispatcher := getProxyAgent "https://x/v1" |}.
Proof.
  cbn zeta. split; [reflexivity|]. split; [reflexivity|].
  destruct (supplyData_base_url (RT := Reference.runtime) (HT := Reference.host)
              (Reference.context (Reference.credential (Some "https://x/v1/")) None)
              0 (Reference.credential (Some "https://x/v1/")) "openai/gpt-4o"
              eq_refl eq_refl)
    as (client & Hrun & _ & _ & Hpresent & _ & _ & _).
  exists client. split; [exact Hrun|].
  apply Hpresent. discriminate.
Defined.

(** The URL [/] of a credential: stripped of its trailing slashes it is
    the empty string, and the configuration has no base URL, not the
    empty string as its base URL. *)
Lemma supplyData_base_url_counterexample :
  let this := Reference.context (Reference.credential (Some "/")) None in
  let stripped :=
    strip_trailing_slashes (default "" (Types.url (Reference.credential (Some "/")))) in
  getCredentials this "vercelAiGatewayPlusApi" = inr (Reference.credential (Some "/")) ∧
  getNodeParameter_model this 0 = inr "openai/gpt-4o" ∧
  stripped = "" ∧
  ∃ client : ChatOpenAI,
    supplyData this 0 = inr {| response := client |} ∧
    baseURL (configuration client) = None ∧
    baseURL (configuration client) ≠ Some stripped.
Proof.
  cbn zeta. split; [reflexivity|]. split; [reflexivity|]. split; [reflexivity|].
  eexists. split; [reflexivity|]. split; [reflexivity|]. discriminate.
Qed.

Lemma supplyData_without_base_url_witness :
  let this := Reference.context (Reference.credential (Some "//")) None in
  getCredentials this "vercelAiGatewayPlusApi" = inr (Reference.credential (Some "//")) ∧
  getNodeParameter_model this 0 = inr "openai/gpt-4o" ∧
  (Types.url (Reference.credential (Some "//")) = None ∨
   ∃ n, Types.url (Reference.credential (Some "//")) = Some (slashes n)) ∧
  ∃ client : ChatOpenAI,
    supplyData this 0 = inr {| response := client |} ∧
    baseURL (configuration client) = None ∧
    fetchOptions (configuration client) = None.
Proof.
  cbn zeta.
  assert (Hurl : Types.url (Reference.credential (Some "//")) = None ∨
                 ∃ n, Types.url (Reference.credential (Some "//")) = Some (slashes n)).
  { right. exists 2. reflexivity. }
  split; [reflexivity|]. split; [reflexivity|]. split; [exact Hurl|].
  destruct (supplyData_without_base_url (RT := Reference.runtime) (HT := Reference.host)
              (Reference.context (Reference.credential (Some "//")) None)
              0 (Reference.credential (Some "//")) "openai/gpt-4o"
              eq_refl eq_refl Hurl)
    as (client & Hrun & Hbase & _ & Hfetch).
  exists client. split; [exact Hrun|]. split; [exact Hbase | exact Hfetch].
Defined.

End node_witnesses.

(** ** Further properties of [toRecord] *)

Section toRecord_further.
Context {number : Type} {RT : Runtime number}.

Import VercelAiGatewayPlusApi.

Lemma entry_string_Some (val : value number) (s : string) :
  entry_string val = Some s ↔ nullish val = false ∧ s = entry_text val.
Proof.
  destruct val; simpl; (split; [intros [= <-] | intros [[=] ->]]); done.
Qed.

Lemma contributions_lookup (props : gmap string (value number)) (k : string) :
  contributions (delete "__proto__" props) !! k =
    if decide (k = "__proto__") then None else props !! k ≫= entry_string.
Proof.
  unfold contributions. rewrite lookup_omap, lookup_delete.
  destruct (decide (k = "__proto__")) as [->|Hk].
  - by rewrite decide_True.
  - by rewrite decide_False.
Qed.

(** What [toRecord] returns, when it returns a mapping. *)
Lemma toRecord_Some (v : value number) (m : gmap string string) :
  toRecord v = Some m ↔
  ∃ props, source_of v = Some (JObject props) ∧
           m = contributions (delete "__proto__" props) ∧ m ≠ ∅.
Proof.
  rewrite toRecord_source. split.
  - destruct (source_of v) as [[| |b|n|s|items|props]|]; try done.
    rewrite toRecord_object. cbn zeta. case_decide; [done|].
    intros [= <-]. by exists props.
  - intros (props & -> & -> & Hne). rewrite toRecord_object. cbn zeta.
    by rewrite decide_False.
Qed.

(** X1.  [toRecord] is absent on every input that is not a plain
    object and does not parse to one: [undefined], [null], a boolean, a
    number, an array, a text that fails to parse, and a text that parses
    to anything but a plain object.  A text is parsed once: one that
    parses to a string is absent, whatever that string holds. *)
Theorem toRecord_absent_unless_plain_object (v : value number) :
  (∀ props, source_of v ≠ Some (JObject props)) →
  toRecord v = None.
Proof.
  intros Hsource. rewrite toRecord_source.
  destruct (source_of v) as [[| |b|n|s|items|props]|]; try done.
  by destruct (Hsource props).
Qed.

(** X2.  When [toRecord] returns a mapping, the value it worked on is a
    plain object, the mapping is not empty, it has no key [__proto__],
    and each of its entries comes from an entry of that object with the
    same key whose value is neither [null] nor [undefined]: a string
    value is kept as it is, any other value is replaced by its JSON
    serialization. *)
Theorem toRecord_entries_come_from_source (v : value number) (m : gmap string string) :
  toRecord v = Some m →
  ∃ props,
    source_of v = Some (JObject props) ∧
    m ≠ ∅ ∧
    m !! "__proto__" = None ∧
    ∀ k s, m !! k = Some s →
           ∃ val, props !! k = Some val ∧ nullish val = false ∧ s = entry_text val.
Proof.
  intros (props & Hsource & -> & Hne)%toRecord_Some.
  exists props. split_and!; [done..| |].
  - by rewrite contributions_lookup, decide_True.
  - intros k s. rewrite contributions_lookup. case_decide; [done|].
    destruct (props !! k) as [val|]; [|done]. simpl.
    intros [? ?]%entry_string_Some. by exists val.
Qed.

(** X3.  Every entry of the plain object [toRecord] works on whose key
    is not [__proto__] and whose value is neither [null] nor
    [undefined] is in the mapping [toRecord] returns, under the same
    key. *)
Theorem toRecord_keeps_entry (v : value number) (props : gmap string (value number))
    (k : string) (val : value number) :
  source_of v = Some (JObject props) →
  props !! k = Some val →
  nullish val = false →
  k ≠ "__proto__" →
  ∃ m, toRecord v = Some m ∧ m !! k = Some (entry_text val).
Proof.
  intros Hsource Hk Hval Hproto.
  assert (Hlookup : contributions (delete "__proto__" props) !! k = Some (entry_text val)).
  { rewrite contributions_lookup, decide_False, Hk by done. simpl.
    by apply entry_string_Some. }
  exists (contributions (delete "__proto__" props)). split; [|done].
  apply toRecord_Some. exists props. split_and!; [done..|].
  intros Hempty. by rewrite Hempty, lookup_empty in Hlookup.
Qed.

(** [toRecord] on a record of strings seen as an object. *)
Lemma toRecord_of_record (r : gmap string string) :
  toRecord (JObject (of_record r)) =
    if decide (delete "__proto__" r = ∅) then None else Some (delete "__proto__" r).
Proof.
  rewrite toRecord_object. cbn zeta.
  assert (Heq : contributions (delete "__proto__" (of_record r : gmap string (value number)))
                = delete "__proto__" r).
  { apply map_eq; intros k. rewrite contributions_lookup, lookup_delete.
    unfold of_record. rewrite lookup_fmap.
    destruct (decide (k = "__proto__")) as [->|Hk].
    - by rewrite decide_True.
    - rewrite decide_False by done. by destruct (r !! k). }
  by rewrite Heq.
Qed.

(** X4.  Normalizing is idempotent: a mapping [toRecord] returned, given
    back to [toRecord] as an object, is returned unchanged. *)
Theorem toRecord_idempotent (v : value number) (m : gmap string string) :
  toRecord v = Some m →
  toRecord (JObject (of_record m)) = Some m.
Proof.
  intros Hm.
  destruct (toRecord_entries_come_from_source v m Hm) as (props & _ & Hne & Hproto & _).
  rewrite toRecord_of_record, delete_id by done.
  by rewrite decide_False.
Qed.

(** X5.  The mapping the reducer of [toRecord] builds does not depend on
    the order in which the entries of the object are listed: every
    listing of the entries gives the contributions of the entries whose
    key is not [__proto__]. *)
Theorem reduce_any_enumeration (props : gmap string (value number))
    (l : list (string * value number)) :
  l ≡ₚ map_to_list props →
  foldl (λ (acc : gmap string string) '(key, val),
           if nullish val then acc
           else assign acc key
                  (match val with
                   | JString s => s
                   | _ => JSON_stringify val
                   end))
        ∅ l
    = contributions (delete "__proto__" props).
Proof.
  intros Hperm. rewrite <- reduce_entries. simpl Object_entries.
  symmetry. apply reduce_order_irrelevant; [apply NoDup_fst_map_to_list | done].
Qed.

End toRecord_further.

(** ** Further properties of [authenticate] *)

Section authenticate_further.
Context {number : Type} {RT : Runtime number}.

Import VercelAiGatewayPlusApi.

Lemma spread_three_absorb {V} (a b c : gmap string V) :
  spread [spread [a; b; c]; b; c] = spread [a; b; c].
Proof.
  apply map_eq; intros k. rewrite !spread_three_lookup.
  by destruct (c !! k), (b !! k).
Qed.

Lemma spread_two_absorb {V} (a b : gmap string V) :
  spread [spread [a; b]; b] = spread [a; b].
Proof.
  apply map_eq; intros k. rewrite !spread_two_lookup.
  by destruct (b !! k).
Qed.

Lemma toRecord_no_override (v : value number) :
  no_override v → toRecord v = None.
Proof.
  intros [-> | [-> | (text & -> & Hparse)]]; try done.
  apply toRecord_absent_unless_plain_object. simpl. by rewrite Hparse.
Qed.

Lemma fixed_headers_dom (apiKey : string) :
  dom (fixed_headers apiKey) = ({[ "Authorization"; "http-referer"; "x-title" ]} : gset string).
Proof.
  unfold fixed_headers. rewrite !dom_insert_L, dom_singleton_L.
  by rewrite (assoc_L (∪)).
Qed.

(** X6.  [authenticate] is idempotent: run a second time with the same
    credentials on the request options it returned, it returns the same
    reference again and leaves every object of the store as the first
    run left it. *)
Theorem authenticate_idempotent (credentials : gmap string (value number))
    (requestOptions : ref) (σ : store number) (apiKey : string) :
  get credentials "apiKey" = JString apiKey →
  apiKey ≠ "" →
  ∃ σ1 σ2 : store number,
    authenticate credentials requestOptions σ = (inr requestOptions, σ1) ∧
    authenticate credentials requestOptions σ1 = (inr requestOptions, σ2) ∧
    ∀ r, σ2 r = σ1 r.
Proof.
  intros Hkey Hne.
  destruct (authenticate_returns credentials requestOptions σ apiKey Hkey Hne)
    as (σ1 & Hrun1 & _ & Hobj1).
  destruct (authenticate_returns credentials requestOptions σ1 apiKey Hkey Hne)
    as (σ2 & Hrun2 & Hothers2 & Hobj2).
  exists σ1, σ2. split; [exact Hrun1|]. split; [exact Hrun2|].
  intros r. destruct (decide (r = requestOptions)) as [->|Hr]; [|by apply Hothers2].
  rewrite Hobj2, Hobj1. simpl.
  rewrite spread_three_absorb.
  destruct (toRecord (get credentials "additionalQuery")) as [q|]; [|done].
  simpl. by rewrite spread_two_absorb.
Qed.

(** X7.  [authenticate] removes no header and no query parameter: the
    names of the headers it leaves are the names that were there, the
    three fixed names and the names of the normalized header overrides;
    the names of the query parameters it leaves are the names that were
    there and the names of the normalized query overrides. *)
Theorem authenticate_keeps_names (credentials : gmap string (value number))
    (requestOptions : ref) (σ : store number) (apiKey : string) :
  get credentials "apiKey" = JString apiKey →
  apiKey ≠ "" →
  ∃ σ' : store number,
    authenticate credentials requestOptions σ = (inr requestOptions, σ') ∧
    dom (default ∅ (headers (σ' requestOptions))) =
      dom (default ∅ (headers (σ requestOptions)))
      ∪ {[ "Authorization"; "http-referer"; "x-title" ]}
      ∪ dom (default ∅ (toRecord (get credentials "additionalHeaders"))) ∧
    dom (default ∅ (qs (σ' requestOptions))) =
      dom (default ∅ (qs (σ requestOptions)))
      ∪ dom (default ∅ (toRecord (get credentials "additionalQuery"))).
Proof.
  intros Hkey Hne.
  destruct (authenticate_returns credentials requestOptions σ apiKey Hkey Hne)
    as (σ' & Hrun & _ & Hobj).
  exists σ'. split; [exact Hrun|]. rewrite Hobj. simpl.
  split.
  - rewrite spread_three. unfold of_record.
    rewrite !dom_union_L, !dom_fmap_L, fixed_headers_dom.
    apply set_eq; intros k. rewrite !elem_of_union. tauto.
  - destruct (toRecord (get credentials "additionalQuery")) as [q|]; simpl.
    + rewrite spread_two. unfold of_record.
      by rewrite dom_union_L, dom_fmap_L, (comm_L (∪)).
    + by rewrite dom_empty_L, (right_id_L ∅ (∪)).
Qed.

(** The run of [authenticate] when neither override field holds
    something to normalize. *)
Lemma authenticate_plain (credentials : gmap string (value number))
    (requestOptions : ref) (σ : store number) (apiKey : string) :
  get credentials "apiKey" = JString apiKey →
  apiKey ≠ "" →
  toRecord (get credentials "additionalHeaders") = None →
  toRecord (get credentials "additionalQuery") = None →
  ∃ σ' : store number,
    authenticate credentials requestOptions σ = (inr requestOptions, σ') ∧
    headers (σ' requestOptions) =
      Some (of_record (fixed_headers apiKey) ∪ default ∅ (headers (σ requestOptions))) ∧
    qs (σ' requestOptions) = qs (σ requestOptions).
Proof.
  intros Hkey Hne Hheaders Hquery.
  destruct (authenticate_returns credentials requestOptions σ apiKey Hkey Hne)
    as (σ' & Hrun & _ & Hobj).
  exists σ'. split; [exact Hrun|]. rewrite Hobj, Hheaders, Hquery.
  simpl. split; [|done].
  rewrite spread_three. unfold of_record at 1.
  by rewrite fmap_empty, (left_id_L ∅ (∪)).
Qed.

(** X8.  Overrides that cannot be normalized are ignored without an
    error: when each of [additionalHeaders] and [additionalQuery] is
    missing, [null], or a text that fails to parse, [authenticate]
    returns normally, the headers are the fixed headers over the
    headers that were there, and the query string is untouched. *)
Theorem authenticate_ignores_unusable_overrides (credentials : gmap string (value number))
    (requestOptions : ref) (σ : store number) (apiKey : string) :
  get credentials "apiKey" = JString apiKey →
  apiKey ≠ "" →
  no_override (get credentials "additionalHeaders") →
  no_override (get credentials "additionalQuery") →
  ∃ σ' : store number,
    authenticate credentials requestOptions σ = (inr requestOptions, σ') ∧
    headers (σ' requestOptions) =
      Some (of_record (fixed_headers apiKey) ∪ default ∅ (headers (σ requestOptions))) ∧
    qs (σ' requestOptions) = qs (σ requestOptions).
Proof.
  intros Hkey Hne Hheaders Hquery.
  apply authenticate_plain; [done..| |]; by apply toRecord_no_override.
Qed.

(** X9.  A credential whose fields of type [json] hold the default the
    property list declares for them (the empty text, which does not
    parse) gets no override: [authenticate] returns normally with the
    fixed headers over the headers that were there, and the query
    string untouched. *)
Theorem authenticate_with_declared_defaults (credentials : gmap string (value number))
    (requestOptions : ref) (σ : store number) (apiKey : string) :
  get credentials "apiKey" = JString apiKey →
  apiKey ≠ "" →
  JSON_parse "" = None →
  (∀ p, p ∈ properties → Schema.type p = "json" →
        get credentials (Schema.name p) = JString (Schema.default_ p)) →
  ∃ σ' : store number,
    authenticate credentials requestOptions σ = (inr requestOptions, σ') ∧
    headers (σ' requestOptions) =
      Some (of_record (fixed_headers apiKey) ∪ default ∅ (headers (σ requestOptions))) ∧
    qs (σ' requestOptions) = qs (σ requestOptions).
Proof.
  intros Hkey Hne Hparse Hdefaults.
  rewrite <- Forall_forall in Hdefaults. unfold properties in Hdefaults.
  rewrite !Forall_cons in Hdefaults.
  destruct Hdefaults as (_ & _ & Hheaders & Hquery & _). simpl in Hheaders, Hquery.
  apply authenticate_plain; [done..| |]; apply toRecord_no_override; right; right;
    exists ""; auto.
Qed.

End authenticate_further.

(** ** Further properties of [strip_trailing_slashes] *)

Section strip_further.

Import LmChatVercelAiGatewayPlus.

Lemma append_cons (c : ascii) (s t : string) : String c s +:+ t = String c (s +:+ t).
Proof. reflexivity. Qed.

Lemma append_empty_l (t : string) : "" +:+ t = t.
Proof. reflexivity. Qed.

Lemma append_empty_r (s : string) : s +:+ "" = s.
Proof. induction s as [|c s IH]; [done|]. by rewrite append_cons, IH. Qed.

Lemma append_slashes_assoc (s : string) (n m : nat) :
  (s +:+ slashes n) +:+ slashes m = s +:+ slashes (n + m).
Proof.
  induction s as [|c s IH].
  - rewrite !append_empty_l.
    induction n as [|n IHn]; [done|].
    change (String "/" (slashes n) +:+ slashes m = String "/" (slashes (n + m))).
    by rewrite append_cons, IHn.
  - by rewrite !append_cons, IH.
Qed.

(** X15.  Removing the trailing slashes is a normal form: doing it twice
    is doing it once, slashes put after a string do not change the
    result, and a string is returned unchanged exactly when it does not
    end with a slash. *)
Theorem strip_trailing_slashes_normal_form (s : string) (n : nat) :
  strip_trailing_slashes (strip_trailing_slashes s) = strip_trailing_slashes s ∧
  strip_trailing_slashes (s +:+ slashes n) = strip_trailing_slashes s ∧
  (strip_trailing_slashes s = s ↔ ∀ t, s ≠ t +:+ "/").
Proof.
  assert (Hfix : ∀ u, (∀ t, u ≠ t +:+ "/") → strip_trailing_slashes u = u).
  { intros u Hu. rewrite <- (strip_append_slashes u 0 Hu) at 2.
    change (slashes 0) with "". by rewrite append_empty_r. }
  split_and!.
  - apply Hfix. apply strip_no_trailing_slash.
  - destruct (strip_decompose s) as [m Hm].
    rewrite Hm at 1. rewrite append_slashes_assoc.
    apply strip_append_slashes. apply strip_no_trailing_slash.
  - split; [|apply Hfix].
    intros Heq t Ht. apply (strip_no_trailing_slash s t). by rewrite Heq.
Qed.

End strip_further.

(** ** Further properties of [supplyData] *)

Section supplyData_further.
Context {number : Type} {RT : Runtime number} {HT : LmChatVercelAiGatewayPlus.Host number}.

Import LmChatVercelAiGatewayPlus.

(** The rest of what [supplyData] builds once the credentials and the
    model name are resolved. *)
Lemma supplyData_builds (this : ISupplyDataFunctions number) (itemIndex : nat)
    (credentials : Types.VercelAiGatewayPlusCredential number) (modelName : string) :
  getCredentials this "vercelAiGatewayPlusApi" = inr credentials →
  getNodeParameter_model this itemIndex = inr modelName →
  ∃ client : ChatOpenAI,
    supplyData this itemIndex = inr {| response := client |} ∧
    defaultHeaders (configuration client) =
      match toRecord (Types.additionalHeaders credentials) with
      | Some h => spread [attribution_headers; h]
      | None => attribution_headers
      end ∧
    defaultQuery (configuration client) =
      match toRecord (Types.additionalQuery credentials) with
      | Some q => Some (spread [∅; q])
      | None => None
      end ∧
    client_apiKey client = Types.apiKey credentials ∧
    client_model client = modelName ∧
    user client = or_undefined (default "" (getNodeParameter_user this itemIndex)) ∧
    callbacks client = [N8nLlmTracing this] ∧
    onFailedAttempt client = makeN8nLlmFailedAttemptHandler this openAiFailedAttemptHandler.
Proof.
  intros Hcred Hmodel. unfold supplyData. rewrite Hcred, Hmodel.
  eexists. split; [reflexivity|].
  cbn [configuration client_apiKey client_model user callbacks onFailedAttempt].
  split_and!; try reflexivity.
  - by destruct (toRecord (Types.additionalHeaders credentials)),
      (toRecord (Types.additionalQuery credentials)).
  - by destruct (toRecord (Types.additionalHeaders credentials)),
      (toRecord (Types.additionalQuery credentials)).
Qed.

(** X10.  The default headers of the client [supplyData] returns are,
    key by key, the normalized override of the credential when
    [additionalHeaders] has one, else the attribution header
    ([http-referer: https://n8n.io/], [x-title: n8n]), else nothing.
    In particular the configuration carries no [Authorization] header
    unless an override names one: the key goes to the client in its own
    field. *)
Theorem supplyData_default_headers (this : ISupplyDataFunctions number) (itemIndex : nat)
    (credentials : Types.VercelAiGatewayPlusCredential number) (modelName : string) :
  getCredentials this "vercelAiGatewayPlusApi" = inr credentials →
  getNodeParameter_model this itemIndex = inr modelName →
  ∃ client : ChatOpenAI,
    supplyData this itemIndex = inr {| response := client |} ∧
    let overrides := default ∅ (toRecord (Types.additionalHeaders credentials)) in
    (∀ k, defaultHeaders (configuration client) !! k =
            match overrides !! k with
            | Some s => Some s
            | None => attribution_headers !! k
            end) ∧
    defaultHeaders (configuration client) !! "Authorization" = overrides !! "Authorization" ∧
    client_apiKey client = Types.apiKey credentials.
Proof.
  intros Hcred Hmodel.
  destruct (supplyData_builds this itemIndex credentials modelName Hcred Hmodel)
    as (client & Hrun & Hheaders & _ & Hkey & _).
  exists client. split; [exact Hrun|]. cbn zeta.
  assert (Hcascade : ∀ k,
    defaultHeaders (configuration client) !! k =
      match default ∅ (toRecord (Types.additionalHeaders credentials)) !! k with
      | Some s => Some s
      | None => attribution_headers !! k
      end).
  { intros k. rewrite Hheaders.
    destruct (toRecord (Types.additionalHeaders credentials)) as [h|]; simpl.
    - by rewrite spread_two_lookup.
    - by rewrite lookup_empty. }
  split_and!; [exact Hcascade| |exact Hkey].
  rewrite Hcascade.
  by destruct (default ∅ (toRecord (Types.additionalHeaders credentials)) !! "Authorization").
Qed.

(** X11.  The default query of the client [supplyData] returns is the
    normalized [additionalQuery] of the credential: absent when that is
    absent, and never an empty mapping. *)
Theorem supplyData_default_query (this : ISupplyDataFunctions number) (itemIndex : nat)
    (credentials : Types.VercelAiGatewayPlusCredential number) (modelName : string) :
  getCredentials this "vercelAiGatewayPlusApi" = inr credentials →
  getNodeParameter_model this itemIndex = inr modelName →
  ∃ client : ChatOpenAI,
    supplyData this itemIndex = inr {| response := client |} ∧
    defaultQuery (configuration client) = toRecord (Types.additionalQuery credentials) ∧
    defaultQuery (configuration client) ≠ Some ∅.
Proof.
  intros Hcred Hmodel.
  destruct (supplyData_builds this itemIndex credentials modelName Hcred Hmodel)
    as (client & Hrun & _ & Hquery & _).
  exists client. split; [exact Hrun|].
  assert (Heq : defaultQuery (configuration client)
                = toRecord (Types.additionalQuery credentials)).
  { rewrite Hquery.
    destruct (toRecord (Types.additionalQuery credentials)) as [q|]; [|done].
    by rewrite spread_two, (right_id_L ∅ (∪)). }
  split; [exact Heq|]. rewrite Heq. intros Hempty.
  change (VercelAiGatewayPlusApi.toRecord (Types.additionalQuery credentials) = Some ∅)
    in Hempty.
  by destruct (toRecord_entries_come_from_source _ _ Hempty) as (_ & _ & Hne & _).
Qed.

(** X12.  [supplyData] passes on the errors of the host: when the host
    fails to resolve the credential, [supplyData] fails with that error,
    and when the host resolves the credential and fails to read the
    model parameter, [supplyData] fails with that error.  The credential
    it asks for is the one the description of the node lists, which is
    the name of the credential type. *)
Theorem supplyData_propagates_errors (this : ISupplyDataFunctions number) (itemIndex : nat)
    (e : exn) :
  (getCredentials this VercelAiGatewayPlusApi.name = inl e ∨
   ∃ credentials,
     getCredentials this VercelAiGatewayPlusApi.name = inr credentials ∧
     getNodeParameter_model this itemIndex = inl e) →
  supplyData this itemIndex = inl e ∧
  Schema.credential_name <$> description_credentials = [VercelAiGatewayPlusApi.name].
Proof.
  intros Hfails. split; [|reflexivity].
  unfold supplyData. unfold VercelAiGatewayPlusApi.name in Hfails.
  destruct Hfails as [-> | (credentials & -> & ->)]; reflexivity.
Qed.

(** X13.  The client [supplyData] returns has the key of the credential
    and the model name the host resolved; it has a user exactly when
    the user parameter has a value that is not the empty string, and
    then that value: an empty user is never passed on. *)
Theorem supplyData_identity_and_user (this : ISupplyDataFunctions number) (itemIndex : nat)
    (credentials : Types.VercelAiGatewayPlusCredential number) (modelName : string) :
  getCredentials this "vercelAiGatewayPlusApi" = inr credentials →
  getNodeParameter_model this itemIndex = inr modelName →
  ∃ client : ChatOpenAI,
    supplyData this itemIndex = inr {| response := client |} ∧
    client_apiKey client = Types.apiKey credentials ∧
    client_model client = modelName ∧
    user client ≠ Some "" ∧
    (∀ u, user client = Some u ↔ getNodeParameter_user this itemIndex = Some u ∧ u ≠ "") ∧
    (user client = None ↔
     getNodeParameter_user this itemIndex = None ∨
     getNodeParameter_user this itemIndex = Some "").
Proof.
  intros Hcred Hmodel.
  destruct (supplyData_builds this itemIndex credentials modelName Hcred Hmodel)
    as (client & Hrun & _ & _ & Hkey & Hname & Huser & _).
  exists client. split; [exact Hrun|]. split; [exact Hkey|]. split; [exact Hname|].
  rewrite Huser. unfold or_undefined.
  destruct (getNodeParameter_user this itemIndex) as [u|]; simpl.
  - destruct (String.eqb_spec u "") as [->|Hu].
    + split_and!; [done| |by split; [right|]].
      intros u'. split; [done|]. by intros [[= <-] ?].
    + split_and!; [congruence| |].
      * intros u'. split; [intros [= <-]; done|]. by intros [[= <-] _].
      * split; [done|]. intros [[=]|[= ->]]. done.
  - split_and!; [done| |by split; [left|]].
    intros u'. split; [done|]. by intros [[=] _].
Qed.

End supplyData_further.

(** ** The credential and the node together *)

Section credential_and_node.
Context {number : Type} {RT : Runtime number} {HT : LmChatVercelAiGatewayPlus.Host number}.

Lemma fixed_headers_attribution (apiKey k : string) :
  k ≠ "Authorization" → fixed_headers apiKey !! k = attribution_headers !! k.
Proof. intros Hk. unfold fixed_headers. by rewrite lookup_insert_ne. Qed.

(** X14.  The credential and the node agree on what they add to a
    request.  For the same override fields, on request options that had
    no headers and no query string, the headers [authenticate] leaves
    are, for every name other than [Authorization], the default headers
    of the client [supplyData] returns, and the query string it leaves
    is the default query of that client. *)
Theorem authenticate_agrees_with_supplyData
    (credentials_object : gmap string (value number)) (requestOptions : ref)
    (σ : store number) (apiKey : string)
    (this : LmChatVercelAiGatewayPlus.ISupplyDataFunctions number) (itemIndex : nat)
    (credentials : Types.VercelAiGatewayPlusCredential number) (modelName : string) :
  get credentials_object "apiKey" = JString apiKey →
  apiKey ≠ "" →
  LmChatVercelAiGatewayPlus.getCredentials this "vercelAiGatewayPlusApi" = inr credentials →
  LmChatVercelAiGatewayPlus.getNodeParameter_model this itemIndex = inr modelName →
  get credentials_object "additionalHeaders" = Types.additionalHeaders credentials →
  get credentials_object "additionalQuery" = Types.additionalQuery credentials →
  headers (σ requestOptions) = None →
  qs (σ requestOptions) = None →
  ∃ (σ' : store number) (client : LmChatVercelAiGatewayPlus.ChatOpenAI),
    VercelAiGatewayPlusApi.authenticate credentials_object requestOptions σ
      = (inr requestOptions, σ') ∧
    LmChatVercelAiGatewayPlus.supplyData this itemIndex
      = inr {| LmChatVercelAiGatewayPlus.response := client |} ∧
    (∀ k, k ≠ "Authorization" →
          default ∅ (headers (σ' requestOptions)) !! k =
            JString <$>
              LmChatVercelAiGatewayPlus.defaultHeaders
                (LmChatVercelAiGatewayPlus.configuration client) !! k) ∧
    qs (σ' requestOptions) =
      of_record <$>
        LmChatVercelAiGatewayPlus.defaultQuery
          (LmChatVercelAiGatewayPlus.configuration client).
Proof.
  intros Hkey Hne Hcred Hmodel Hheaders Hquery Hnoheaders Hnoqs.
  destruct (authenticate_returns credentials_object requestOptions σ apiKey Hkey Hne)
    as (σ' & Hrun & _ & Hobj).
  destruct (supplyData_builds this itemIndex credentials modelName Hcred Hmodel)
    as (client & Hsupply & Hdefault & Hdefaultq & _).
  exists σ', client. split; [exact Hrun|]. split; [exact Hsupply|].
  rewrite Hobj, Hdefault, Hdefaultq, Hheaders, Hquery, Hnoheaders, Hnoqs. simpl.
  change (LmChatVercelAiGatewayPlus.toRecord (Types.additionalHeaders credentials))
    with (VercelAiGatewayPlusApi.toRecord (Types.additionalHeaders credentials)).
  change (LmChatVercelAiGatewayPlus.toRecord (Types.additionalQuery credentials))
    with (VercelAiGatewayPlusApi.toRecord (Types.additionalQuery credentials)).
  split.
  - intros k Hk. rewrite spread_three_lookup, !of_record_lookup, lookup_empty.
    rewrite (fixed_headers_attribution apiKey k Hk).
    destruct (VercelAiGatewayPlusApi.toRecord (Types.additionalHeaders credentials))
      as [h|]; simpl.
    + rewrite spread_two_lookup. by destruct (h !! k), (attribution_headers !! k).
    + rewrite lookup_empty. by destruct (attribution_headers !! k).
  - destruct (VercelAiGatewayPlusApi.toRecord (Types.additionalQuery credentials))
      as [q|]; simpl; [|done].
    by rewrite !spread_two, !(right_id_L ∅ (∪)).
Qed.

(** X16.  The two credential types send the same header names.  On
    request options without headers, and with no usable header
    override, the headers [authenticate] of the first type leaves have
    the names of the header template the second type declares, with the
    same values for every name other than [Authorization]; for that
    name the first computes the bearer token where the second declares
    an expression for the host to fill in. *)
Theorem credential_types_send_same_headers
    (credentials : gmap string (value number)) (requestOptions : ref)
    (σ : store number) (apiKey : string) :
  get credentials "apiKey" = JString apiKey →
  apiKey ≠ "" →
  no_override (get credentials "additionalHeaders") →
  headers (σ requestOptions) = None →
  ∃ (σ' : store number) (h : gmap string (value number)),
    VercelAiGatewayPlusApi.authenticate credentials requestOptions σ
      = (inr requestOptions, σ') ∧
    headers (σ' requestOptions) = Some h ∧
    dom h = dom (Schema.auth_headers AdalinkAiGatewayApi.authenticate) ∧
    (∀ k, k ≠ "Authorization" →
          h !! k = JString <$> Schema.auth_headers AdalinkAiGatewayApi.authenticate !! k) ∧
    h !! "Authorization" = Some (JString ("Bearer " +:+ apiKey)) ∧
    Schema.auth_headers AdalinkAiGatewayApi.authenticate !! "Authorization"
      = Some "=Bearer {{$credentials.apiKey}}".
Proof.
  intros Hkey Hne Hheaders Hnone.
  destruct (authenticate_returns credentials requestOptions σ apiKey Hkey Hne)
    as (σ' & Hrun & _ & Hobj).
  eexists σ', _. split; [exact Hrun|]. split; [by rewrite Hobj|].
  rewrite (toRecord_no_override _ Hheaders), Hnone. simpl.
  assert (Hlookup : ∀ k,
    spread [∅; of_record (fixed_headers apiKey); of_record ∅] !! k
      = (of_record (fixed_headers apiKey) : gmap string (value number)) !! k).
  { intros k. rewrite spread_three_lookup, !of_record_lookup, !lookup_empty. simpl.
    by destruct (fixed_headers apiKey !! k). }
  split_and!.
  - apply set_eq; intros k. rewrite !elem_of_dom, Hlookup, of_record_lookup.
    unfold fixed_headers, AdalinkAiGatewayApi.authenticate; simpl.
    rewrite fmap_is_Some, <- !elem_of_dom, !dom_insert_L. done.
  - intros k Hk. rewrite Hlookup, of_record_lookup.
    unfold fixed_headers, AdalinkAiGatewayApi.authenticate; simpl.
    by rewrite !(lookup_insert_ne _ "Authorization") by done.
  - by rewrite Hlookup.
  - reflexivity.
Qed.

(** X17.  The credential test, authenticated.  On request options that
    are the test request the credential type declares, [authenticate]
    leaves the normalized header overrides over the three fixed headers
    (the two attribution headers of the test request are the fixed
    ones), the normalized query overrides as the query string, and the
    URL, the method and the body as declared. *)
Theorem authenticate_on_test_request
    (credentials : gmap string (value number)) (requestOptions : ref)
    (σ : store number) (apiKey : string) :
  get credentials "apiKey" = JString apiKey →
  apiKey ≠ "" →
  σ requestOptions = request VercelAiGatewayPlusApi.test →
  ∃ σ' : store number,
    VercelAiGatewayPlusApi.authenticate credentials requestOptions σ
      = (inr requestOptions, σ') ∧
    headers (σ' requestOptions) =
      Some (of_record
              (default ∅ (VercelAiGatewayPlusApi.toRecord (get credentials "additionalHeaders")))
            ∪ of_record (fixed_headers apiKey)) ∧
    qs (σ' requestOptions) =
      of_record <$> VercelAiGatewayPlusApi.toRecord (get credentials "additionalQuery") ∧
    url (σ' requestOptions) = "/chat/completions" ∧
    method (σ' requestOptions) = Some "POST" ∧
    baseURL (σ' requestOptions) = Some "={{ $credentials.url }}" ∧
    body (σ' requestOptions) = body (request VercelAiGatewayPlusApi.test).
Proof.
  intros Hkey Hne Htest.
  destruct (authenticate_returns credentials requestOptions σ apiKey Hkey Hne)
    as (σ' & Hrun & _ & Hobj).
  exists σ'. split; [exact Hrun|]. rewrite Hobj, Htest. simpl.
  split_and!; try reflexivity.
  destruct (VercelAiGatewayPlusApi.toRecord (get credentials "additionalQuery"))
    as [q|]; simpl; [|done].
  by rewrite spread_two, (right_id_L ∅ (∪)).
Qed.

End credential_and_node.

(** ** Runs of the further properties *)

Section credential_witnesses.

Import Reference.

Lemma toRecord_absent_unless_plain_object_witness :
  (∀ props, source_of (JString quoted_object) ≠ Some (JObject props)) ∧
  VercelAiGatewayPlusApi.toRecord (JString quoted_object) = None.
Proof.
  assert (Hsource : ∀ props : gmap string (value Z),
            source_of (JString quoted_object) ≠ Some (JObject props)).
  { intros props Heq. vm_compute in Heq. discriminate Heq. }
  split; [exact Hsource|].
  exact (toRecord_absent_unless_plain_object (JString quoted_object) Hsource).
Defined.

Lemma toRecord_entries_come_from_source_witness :
  VercelAiGatewayPlusApi.toRecord (JString x_one) = Some {[ "x" := "1" ]} ∧
  ∃ props : gmap string (value Z),
    source_of (JString x_one) = Some (JObject props) ∧
    ({[ "x" := "1" ]} : gmap string string) ≠ ∅ ∧
    ({[ "x" := "1" ]} : gmap string string) !! "__proto__" = None ∧
    ∀ k s, ({[ "x" := "1" ]} : gmap string string) !! k = Some s →
           ∃ val, props !! k = Some val ∧ nullish val = false ∧ s = entry_text val.
Proof.
  assert (Hrun : VercelAiGatewayPlusApi.toRecord (JString x_one) = Some {[ "x" := "1" ]})
    by (vm_compute; reflexivity).
  split; [exact Hrun|].
  exact (toRecord_entries_come_from_source (JString x_one) {[ "x" := "1" ]} Hrun).
Defined.

Lemma toRecord_keeps_entry_witness :
  source_of (JString x_one) = Some (JObject {[ "x" := JNumber 1%Z ]}) ∧
  ({[ "x" := JNumber 1%Z ]} : gmap string (value Z)) !! "x" = Some (JNumber 1%Z) ∧
  nullish (JNumber 1%Z) = false ∧
  "x" ≠ "__proto__" ∧
  ∃ m, VercelAiGatewayPlusApi.toRecord (JString x_one) = Some m ∧
       m !! "x" = Some (entry_text (JNumber 1%Z)).
Proof.
  assert (Hsource : source_of (JString x_one) = Some (JObject {[ "x" := JNumber 1%Z ]}))
    by (vm_compute; reflexivity).
  assert (Hne : "x" ≠ "__proto__") by discriminate.
  split; [exact Hsource|]. split; [reflexivity|]. split; [reflexivity|].
  split; [exact Hne|].
  exact (toRecord_keeps_entry (JString x_one) {[ "x" := JNumber 1%Z ]} "x" (JNumber 1%Z)
           Hsource eq_refl eq_refl Hne).
Defined.

Lemma toRecord_idempotent_witness :
  VercelAiGatewayPlusApi.toRecord (JString x_one) = Some {[ "x" := "1" ]} ∧
  VercelAiGatewayPlusApi.toRecord (JObject (of_record {[ "x" := "1" ]}))
    = Some ({[ "x" := "1" ]} : gmap string string).
Proof.
  assert (Hrun : VercelAiGatewayPlusApi.toRecord (JString x_one) = Some {[ "x" := "1" ]})
    by (vm_compute; reflexivity).
  split; [exact Hrun|].
  exact (toRecord_idempotent (JString x_one) {[ "x" := "1" ]} Hrun).
Defined.

Lemma reduce_any_enumeration_witness :
  [("x", JNumber 1%Z); ("a", JString "b")] ≡ₚ map_to_list two_entries ∧
  foldl (λ (acc : gmap string string) '(key, val),
           if nullish val then acc
           else assign acc key
                  (match val with
                   | JString s => s
                   | _ => JSON_stringify val
                   end))
        ∅ [("x", JNumber 1%Z); ("a", JString "b")]
    = contributions (delete "__proto__" two_entries).
Proof.
  assert (Hperm : [("x", JNumber 1%Z); ("a", JString "b")] ≡ₚ map_to_list two_entries).
  { change (map_to_list two_entries)
      with [("a", JString (number := Z) "b"); ("x", JNumber 1%Z)].
    apply perm_swap. }
  split; [exact Hperm|].
  exact (reduce_any_enumeration two_entries _ Hperm).
Defined.

Lemma authenticate_idempotent_witness :
  get credentials_object "apiKey" = JString "key" ∧
  "key" ≠ "" ∧
  ∃ σ1 σ2 : store Z,
    VercelAiGatewayPlusApi.authenticate credentials_object 0 initial_store = (inr 0, σ1) ∧
    VercelAiGatewayPlusApi.authenticate credentials_object 0 σ1 = (inr 0, σ2) ∧
    ∀ r, σ2 r = σ1 r.
Proof.
  assert (Hkey : get credentials_object "apiKey" = JString (number := Z) "key")
    by reflexivity.
  assert (Hne : "key" ≠ "") by discriminate.
  split; [exact Hkey|]. split; [exact Hne|].
  exact (authenticate_idempotent credentials_object 0 initial_store "key" Hkey Hne).
Defined.

Lemma authenticate_keeps_names_witness :
  get credentials_object "apiKey" = JString "key" ∧
  "key" ≠ "" ∧
  ∃ σ' : store Z,
    VercelAiGatewayPlusApi.authenticate credentials_object 0 initial_store = (inr 0, σ') ∧
    dom (default ∅ (headers (σ' 0))) =
      dom (default ∅ (headers (initial_store 0)))
      ∪ {[ "Authorization"; "http-referer"; "x-title" ]}
      ∪ dom (default ∅ (VercelAiGatewayPlusApi.toRecord
                          (get credentials_object "additionalHeaders"))) ∧
    dom (default ∅ (qs (σ' 0))) =
      dom (default ∅ (qs (initial_store 0)))
      ∪ dom (default ∅ (VercelAiGatewayPlusApi.toRecord
                          (get credentials_object "additionalQuery"))).
Proof.
  assert (Hkey : get credentials_object "apiKey" = JString (number := Z) "key")
    by reflexivity.
  assert (Hne : "key" ≠ "") by discriminate.
  split; [exact Hkey|]. split; [exact Hne|].
  exact (authenticate_keeps_names credentials_object 0 initial_store "key" Hkey Hne).
Defined.

Lemma authenticate_ignores_unusable_overrides_witness :
  get unusable_credentials_object "apiKey" = JString "key" ∧
  "key" ≠ "" ∧
  no_override (get unusable_credentials_object "additionalHeaders") ∧
  no_override (get unusable_credentials_object "additionalQuery") ∧
  ∃ σ' : store Z,
    VercelAiGatewayPlusApi.authenticate unusable_credentials_object 0 initial_store
      = (inr 0, σ') ∧
    headers (σ' 0) =
      Some (of_record (fixed_headers "key") ∪ default ∅ (headers (initial_store 0))) ∧
    qs (σ' 0) = qs (initial_store 0).
Proof.
  assert (Hkey : get unusable_credentials_object "apiKey" = JString (number := Z) "key")
    by reflexivity.
  assert (Hne : "key" ≠ "") by discriminate.
  assert (Hheaders : no_override (get unusable_credentials_object "additionalHeaders")).
  { right. right. exists "not json". split; reflexivity. }
  assert (Hquery : no_override (get unusable_credentials_object "additionalQuery")).
  { left. reflexivity. }
  split; [exact Hkey|]. split; [exact Hne|]. split; [exact Hheaders|].
  split; [exact Hquery|].
  exact (authenticate_ignores_unusable_overrides unusable_credentials_object 0
           initial_store "key" Hkey Hne Hheaders Hquery).
Defined.

Lemma authenticate_with_declared_defaults_witness :
  get default_credentials_object "apiKey" = JString "key" ∧
  "key" ≠ "" ∧
  JSON_parse "" = None ∧
  (∀ p, p ∈ VercelAiGatewayPlusApi.properties → Schema.type p = "json" →
        get default_credentials_object (Schema.name p) = JString (Schema.default_ p)) ∧
  ∃ σ' : store Z,
    VercelAiGatewayPlusApi.authenticate default_credentials_object 0 initial_store
      = (inr 0, σ') ∧
    headers (σ' 0) =
      Some (of_record (fixed_headers "key") ∪ default ∅ (headers (initial_store 0))) ∧
    qs (σ' 0) = qs (initial_store 0).
Proof.
  assert (Hkey : get default_credentials_object "apiKey" = JString (number := Z) "key")
    by reflexivity.
  assert (Hne : "key" ≠ "") by discriminate.
  assert (Hparse : JSON_parse "" = None) by reflexivity.
  assert (Hdefaults : ∀ p, p ∈ VercelAiGatewayPlusApi.properties → Schema.type p = "json" →
            get default_credentials_object (Schema.name p)
              = JString (number := Z) (Schema.default_ p)).
  { intros p Hp Htype. unfold VercelAiGatewayPlusApi.properties in Hp.
    rewrite !elem_of_cons in Hp.
    destruct Hp as [-> | [-> | [-> | [-> | Hp]]]];
      [discriminate Htype | discriminate Htype | reflexivity | reflexivity |].
    by apply elem_of_nil in Hp. }
  split; [exact Hkey|]. split; [exact Hne|]. split; [exact Hparse|].
  split; [exact Hdefaults|].
  exact (authenticate_with_declared_defaults default_credentials_object 0
           initial_store "key" Hkey Hne Hparse Hdefaults).
Defined.

Lemma credential_types_send_same_headers_witness :
  get unusable_credentials_object "apiKey" = JString "key" ∧
  "key" ≠ "" ∧
  no_override (get unusable_credentials_object "additionalHeaders") ∧
  headers (bare_store 0) = None ∧
  ∃ (σ' : store Z) (h : gmap string (value Z)),
    VercelAiGatewayPlusApi.authenticate unusable_credentials_object 0 bare_store
      = (inr 0, σ') ∧
    headers (σ' 0) = Some h ∧
    h !! "http-referer" = Some (JString "https://n8n.io/") ∧
    h !! "x-title" = Some (JString "n8n") ∧
    h !! "Authorization" = Some (JString "Bearer key").
Proof.
  assert (Hkey : get unusable_credentials_object "apiKey" = JString (number := Z) "key")
    by reflexivity.
  assert (Hne : "key" ≠ "") by discriminate.
  assert (Hheaders : no_override (get unusable_credentials_object "additionalHeaders")).
  { right. right. exists "not json". split; reflexivity. }
  split; [exact Hkey|]. split; [exact Hne|]. split; [exact Hheaders|].
  split; [reflexivity|].
  destruct (credential_types_send_same_headers unusable_credentials_object 0
              bare_store "key" Hkey Hne Hheaders eq_refl)
    as (σ' & h & Hrun & Hh & _ & Hother & Hauth & _).
  exists σ', h. split; [exact Hrun|]. split; [exact Hh|].
  split; [rewrite Hother by discriminate; reflexivity|].
  split; [rewrite Hother by discriminate; reflexivity|].
  exact Hauth.
Defined.

Lemma authenticate_on_test_request_witness :
  get credentials_object "apiKey" = JString "key" ∧
  "key" ≠ "" ∧
  ∃ σ' : store Z,
    VercelAiGatewayPlusApi.authenticate credentials_object 0
        (λ _, request VercelAiGatewayPlusApi.test)
      = (inr 0, σ') ∧
    headers (σ' 0) =
      Some (of_record
              (default ∅ (VercelAiGatewayPlusApi.toRecord
                            (get credentials_object "additionalHeaders")))
            ∪ of_record (fixed_headers "key")) ∧
    qs (σ' 0) =
      of_record <$> VercelAiGatewayPlusApi.toRecord (get credentials_object "additionalQuery") ∧
    url (σ' 0) = "/chat/completions" ∧
    method (σ' 0) = Some "POST" ∧
    baseURL (σ' 0) = Some "={{ $credentials.url }}" ∧
    body (σ' 0) = body (request VercelAiGatewayPlusApi.test).
Proof.
  assert (Hkey : get credentials_object "apiKey" = JString (number := Z) "key")
    by reflexivity.
  assert (Hne : "key" ≠ "") by discriminate.
  split; [exact Hkey|]. split; [exact Hne|].
  exact (authenticate_on_test_request credentials_object 0
           (λ _, request VercelAiGatewayPlusApi.test) "key" Hkey Hne eq_refl).
Defined.

End credential_witnesses.

Section node_further_witnesses.

Import LmChatVercelAiGatewayPlus.
Import Reference.

Lemma supplyData_default_headers_witness :
  let this := context credential_with_overrides None in
  getCredentials this "vercelAiGatewayPlusApi" = inr credential_with_overrides ∧
  getNodeParameter_model this 0 = inr "openai/gpt-4o" ∧
  ∃ client : ChatOpenAI,
    supplyData this 0 = inr {| response := client |} ∧
    defaultHeaders (configuration client) !! "x-team" = Some "blue" ∧
    defaultHeaders (configuration client) !! "x-title" = Some "n8n" ∧
    defaultHeaders (configuration client) !! "Authorization" = None ∧
    client_apiKey client = "key".
Proof.
  cbn zeta. split; [reflexivity|]. split; [reflexivity|].
  destruct (supplyData_default_headers (context credential_with_overrides None) 0
              credential_with_overrides "openai/gpt-4o" eq_refl eq_refl)
    as (client & Hrun & Hcascade & Hauth & Hkey).
  exists client. split; [exact Hrun|].
  split; [rewrite Hcascade; reflexivity|].
  split; [rewrite Hcascade; reflexivity|].
  split; [rewrite Hauth; reflexivity|].
  exact Hkey.
Defined.

Lemma supplyData_default_query_witness :
  let this := context credential_with_overrides None in
  getCredentials this "vercelAiGatewayPlusApi" = inr credential_with_overrides ∧
  getNodeParameter_model this 0 = inr "openai/gpt-4o" ∧
  ∃ client : ChatOpenAI,
    supplyData this 0 = inr {| response := client |} ∧
    defaultQuery (configuration client) = Some {[ "x" := "1" ]}.
Proof.
  cbn zeta. split; [reflexivity|]. split; [reflexivity|].
  destruct (supplyData_default_query (context credential_with_overrides None) 0
              credential_with_overrides "openai/gpt-4o" eq_refl eq_refl)
    as (client & Hrun & Hquery & _).
  exists client. split; [exact Hrun|].
  rewrite Hquery. vm_compute. reflexivity.
Defined.

Lemma supplyData_propagates_errors_witness :
  (getCredentials failing_context VercelAiGatewayPlusApi.name
     = inl (Error "Node does not have any credentials set") ∨
   ∃ credentials,
     getCredentials failing_context VercelAiGatewayPlusApi.name = inr credentials ∧
     getNodeParameter_model failing_context 0
       = inl (Error "Node does not have any credentials set")) ∧
  supplyData failing_context 0 = inl (Error "Node does not have any credentials set").
Proof.
  assert (Hfails :
    getCredentials failing_context VercelAiGatewayPlusApi.name
      = inl (Error "Node does not have any credentials set") ∨
    ∃ credentials,
      getCredentials failing_context VercelAiGatewayPlusApi.name = inr credentials ∧
      getNodeParameter_model failing_context 0
        = inl (Error "Node does not have any credentials set")).
  { left. reflexivity. }
  split; [exact Hfails|].
  exact (proj1 (supplyData_propagates_errors failing_context 0 _ Hfails)).
Defined.

Lemma supplyData_identity_and_user_witness :
  let this := context credential_with_overrides None in
  getCredentials this "vercelAiGatewayPlusApi" = inr credential_with_overrides ∧
  getNodeParameter_model this 0 = inr "openai/gpt-4o" ∧
  ∃ client : ChatOpenAI,
    supplyData this 0 = inr {| response := client |} ∧
    client_apiKey client = "key" ∧
    client_model client = "openai/gpt-4o" ∧
    user client = None.
Proof.
  cbn zeta. split; [reflexivity|]. split; [reflexivity|].
  destruct (supplyData_identity_and_user (context credential_with_overrides None) 0
              credential_with_overrides "openai/gpt-4o" eq_refl eq_refl)
    as (client & Hrun & Hkey & Hmodel & _ & _ & Hnone).
  exists client. split; [exact Hrun|]. split; [exact Hkey|]. split; [exact Hmodel|].
  apply Hnone. left. reflexivity.
Defined.

Lemma authenticate_agrees_with_supplyData_witness :
  let this := context credential_with_overrides None in
  get credentials_object "apiKey" = JString "key" ∧
  "key" ≠ "" ∧
  getCredentials this "vercelAiGatewayPlusApi" = inr credential_with_overrides ∧
  getNodeParameter_model this 0 = inr "openai/gpt-4o" ∧
  get credentials_object "additionalHeaders" = Types.additionalHeaders credential_with_overrides ∧
  get credentials_object "additionalQuery" = Types.additionalQuery credential_with_overrides ∧
  headers (bare_store 0) = None ∧
  qs (bare_store 0) = None ∧
  ∃ (σ' : store Z) (client : ChatOpenAI),
    VercelAiGatewayPlusApi.authenticate credentials_object 0 bare_store = (inr 0, σ') ∧
    supplyData this 0 = inr {| response := client |} ∧
    (∀ k, k ≠ "Authorization" →
          default ∅ (headers (σ' 0)) !! k =
            JString <$> defaultHeaders (configuration client) !! k) ∧
    qs (σ' 0) = of_record <$> defaultQuery (configuration client).
Proof.
  cbn zeta.
  assert (Hkey : get credentials_object "apiKey" = JString (number := Z) "key")
    by reflexivity.
  assert (Hne : "key" ≠ "") by discriminate.
  split; [exact Hkey|]. split; [exact Hne|].
  do 6 (split; [reflexivity|]).
  exact (authenticate_agrees_with_supplyData credentials_object 0 bare_store "key"
           (context credential_with_overrides None) 0 credential_with_overrides
           "openai/gpt-4o" Hkey Hne eq_refl eq_refl eq_refl eq_refl eq_refl eq_refl).
Defined.

End node_further_witnesses.
